(** * pdf_footer_remover.py: a shallow embedding and its properties

    The script opens a PDF with pypdf, raises the lower edge of every
    page's media box by a fixed footer height and writes the pages to a new
    file.  The embedding has four layers:

    - [Float64]: Python's [float], IEEE 754 binary64 with round to nearest
      even, on the Standard Library's executable [spec_float];
    - the interpreter, as far as the script uses it: exceptions
      ([SystemExit] is not an [Exception]), a state-and-exception monad over
      the world (file system, standard output), the builtins [print],
      [float], [repr], [sys.exit], and how a run maps to an exit status;
    - pypdf, the third-party library, as the script sees it: a document is
      the list of its pages, a page has a media box of four floats, reading
      and writing may raise;
    - the script itself: [remove_footer], [main] and the [__main__] block.

    Coordinates and the footer height are floats, so what the script adds
    is rounded; the last sections relate float addition, subtraction and
    comparison to exact arithmetic where the properties need it. *)

From Stdlib Require Import ZArith List String Ascii Bool Lia.
From Stdlib Require Import Floats.SpecFloat.
From stdpp Require Import gmap strings pretty.

(** ** Python floats *)

Module Float64.

Definition prec : Z := 53.
Definition emax : Z := 1024.

Definition float : Type := spec_float.

Definition add : float -> float -> float := SFadd prec emax.
Definition sub : float -> float -> float := SFsub prec emax.
Definition mul : float -> float -> float := SFmul prec emax.
Definition div : float -> float -> float := SFdiv prec emax.

(** [x < y], [x > y] and [x <= y] on floats: [False] when an operand is NaN. *)
Definition lt (x y : float) : bool := SFltb x y.
Definition gt (x y : float) : bool := SFltb y x.
Definition le (x y : float) : bool := SFleb x y.

(** The floats that exist at run time: canonical mantissa and exponent. *)
Definition valid (x : float) : bool := valid_binary prec emax x.

(** Conversion of a Python [int], as in [y + 50] or [2 * h]: the nearest
    float (an int beyond the float range raises [OverflowError] in Python;
    the script only converts the literal 50). *)
Definition of_Z (n : Z) : float := binary_normalize prec emax n 0 false.

Definition zero : float := S754_zero false.
Definition is_zero (x : float) : bool :=
  match x with S754_zero _ => true | _ => false end.

(** The value [sign m * 10^e] correctly rounded: what [float] returns for
    a decimal literal with digits [m] and decimal exponent [e]. *)
Definition of_decimal (sign : bool) (m : Z) (e : Z) : float :=
  match m with
  | Z0 => S754_zero sign
  | Zneg _ => S754_nan
  | Zpos p =>
      match e with
      | Zneg k => div (S754_finite sign p 0) (S754_finite false (10 ^ k) 0)
      | _ => binary_normalize prec emax ((if sign then -1 else 1) * (m * 10 ^ e)) 0 sign
      end
  end.

End Float64.

Abbreviation float := Float64.float.

(** ** Strings and the builtins [float] and [repr] *)

(** The white space that [float] drops around a literal: tab, line feed,
    vertical tab, form feed, carriage return and the space (the file,
    group, record and unit separators, 28 to 31, are white space for
    [str.strip] but not for [float]). *)
Definition is_space (c : ascii) : bool :=
  let n := nat_of_ascii c in
  ((9 <=? n) && (n <=? 13) || (n =? 32))%nat.

Fixpoint lstrip (s : string) : string :=
  match s with
  | String c s' => if is_space c then lstrip s' else s
  | EmptyString => s
  end.

Definition strip (s : string) : string :=
  String.rev (lstrip (String.rev (lstrip s))).

Definition lower_char (c : ascii) : ascii :=
  let n := nat_of_ascii c in
  if ((65 <=? n) && (n <=? 90))%nat then ascii_of_nat (n + 32) else c.

Fixpoint lower (s : string) : string :=
  match s with
  | String c s' => String (lower_char c) (lower s')
  | EmptyString => EmptyString
  end.

Definition digit (c : ascii) : option Z :=
  let n := nat_of_ascii c in
  if ((48 <=? n) && (n <=? 57))%nat then Some (Z.of_nat n - 48)%Z else None.

(** [digit (["_"] digit)*] after its first digit: the value read so far, the
    number of digits read and the text that follows. *)
Fixpoint digits_tail (s : string) (acc n : Z) : Z * Z * string :=
  match s with
  | String c s' =>
      match digit c with
      | Some d => digits_tail s' (10 * acc + d)%Z (n + 1)%Z
      | None =>
          match c, s' with
          | "_"%char, String c' s'' =>
              match digit c' with
              | Some d => digits_tail s'' (10 * acc + d)%Z (n + 1)%Z
              | None => (acc, n, s)
              end
          | _, _ => (acc, n, s)
          end
      end
  | EmptyString => (acc, n, s)
  end.

Definition digitpart (s : string) (acc : Z) : option (Z * Z * string) :=
  match s with
  | String c s' =>
      match digit c with
      | Some d => Some (digits_tail s' (10 * acc + d)%Z 1%Z)
      | None => None
      end
  | EmptyString => None
  end.

(** [[digitpart] "." digitpart | digitpart ["."]]: all the digits as one
    integer, how many of them follow the point, and the rest. *)
Definition number (s : string) : option (Z * Z * string) :=
  match digitpart s 0 with
  | Some (i, _, String "."%char r) =>
      match digitpart r i with
      | Some f => Some f
      | None => Some (i, 0%Z, r)
      end
  | Some (i, _, r) => Some (i, 0%Z, r)
  | None =>
      match s with
      | String "."%char r => digitpart r 0
      | _ => None
      end
  end.

Definition sign_of (s : string) : bool * string :=
  match s with
  | String "-"%char r => (true, r)
  | String "+"%char r => (false, r)
  | _ => (false, s)
  end.

(** [("e" | "E") [sign] digitpart] up to the end of the text, or nothing. *)
Definition exponent (s : string) : option Z :=
  match s with
  | EmptyString => Some 0%Z
  | String c r =>
      if Ascii.eqb (lower_char c) "e" then
        let '(neg, r') := sign_of r in
        match digitpart r' 0 with
        | Some (x, _, EmptyString) => Some (if neg then (- x)%Z else x)
        | _ => None
        end
      else None
  end.

(** [float(s)] for a [str] of ASCII characters, as command-line arguments
    are: [None] is [ValueError].  Surrounding white space is dropped; then
    an optional sign and [inf], [infinity], [nan] in any case, or a decimal
    number with an optional exponent. *)
Definition float_of_str (s : string) : option float :=
  let '(neg, r) := sign_of (strip s) in
  let l := lower r in
  if (String.eqb l "inf" || String.eqb l "infinity")%bool then Some (S754_infinity neg)
  else if String.eqb l "nan" then Some S754_nan
  else
    match number r with
    | Some (m, k, r') =>
        match exponent r' with
        | Some x => Some (Float64.of_decimal neg m (x - k))
        | None => None
        end
    | None => None
    end.

Definition dquote : ascii := ascii_of_nat 34.
Definition squote : ascii := ascii_of_nat 39.
Definition backslash : ascii := ascii_of_nat 92.

Fixpoint contains (c : ascii) (s : string) : bool :=
  match s with
  | String c' s' => Ascii.eqb c c' || contains c s'
  | EmptyString => false
  end.

Definition hex_digit (n : nat) : ascii :=
  nth n (list_ascii_of_string "0123456789abcdef") "0"%char.

Definition repr_char (quote c : ascii) : string :=
  let n := nat_of_ascii c in
  if (Ascii.eqb c quote || Ascii.eqb c backslash)%bool then String backslash (String c "")
  else if (n =? 9)%nat then String backslash "t"
  else if (n =? 10)%nat then String backslash "n"
  else if (n =? 13)%nat then String backslash "r"
  else if ((n <? 32) || (n =? 127))%nat then
    String backslash (String "x" (String (hex_digit (n / 16)) (String (hex_digit (n mod 16)) "")))
  else String c "".

Fixpoint repr_chars (quote : ascii) (s : string) : string :=
  match s with
  | String c s' => repr_char quote c +:+ repr_chars quote s'
  | EmptyString => EmptyString
  end.

(** [repr(s)] for a [str], as exception messages quote file names and
    rejected literals (bytes above 127 are kept as they are). *)
Definition repr (s : string) : string :=
  let quote := if (contains squote s && negb (contains dquote s))%bool then dquote else squote in
  String quote (repr_chars quote s +:+ String quote "").

(** ** pypdf: the data the script touches *)

(** [RectangleObject]: the array [[left, bottom, right, top]] of a page
    box, in points (1/72 inch), origin at the lower left. *)
Record RectangleObject := {
  left : float;
  bottom : float;
  right : float;
  top : float
}.

Definition lower_left (r : RectangleObject) : float * float := (left r, bottom r).
Definition upper_right (r : RectangleObject) : float * float := (right r, top r).

(** The setters overwrite two entries of the array and keep the others. *)
Definition set_lower_left (r : RectangleObject) (v : float * float) : RectangleObject :=
  {| left := fst v; bottom := snd v; right := right r; top := top r |}.
Definition set_upper_right (r : RectangleObject) (v : float * float) : RectangleObject :=
  {| left := left r; bottom := bottom r; right := fst v; top := snd v |}.

(** [RectangleObject.height], the page height a footer is compared with. *)
Definition height (r : RectangleObject) : float := Float64.sub (top r) (bottom r).

(** An [Exception] as the script can see it: its class and [str(e)]. *)
Record error := { cls : string; msg : string }.

(** What [page.mediabox] gives: the page's rectangle, or an exception when
    the page dictionary holds no usable box. *)
Inductive mediabox_entry :=
  | Box (r : RectangleObject)
  | Malformed (e : error).

(** A page: its media box and its content stream, which the script never
    reads and which identifies the page here. *)
Record PageObject := {
  mediabox : mediabox_entry;
  contents : string
}.

(** A file is a PDF with its pages in document order, or bytes that
    [PdfReader] rejects with the given exception. *)
Inductive file :=
  | PdfFile (pages : list PageObject)
  | NotPdf (e : error).

(** ** The world and the monad of Python statements *)

(** What the operating system answers at a path that holds no file.
    [Path(p).exists()] is [os.stat] on the path as [Path] normalises it
    ([Path('')] is [Path('.')], the current directory; [Path('a/')] is
    [Path('a')]), while [open] takes the name as it was given:
    - [StatOk e]: [os.stat] succeeds and [open] raises [e] (the empty name,
      a directory, a file that may not be read);
    - [StatRaises e]: [os.stat] raises [e], an [OSError] other than ENOENT,
      ENOTDIR, EBADF and ELOOP, which [Path.exists] does not swallow (a name
      that is too long, a directory that may not be searched), and so does
      [open]. *)
Inductive stat_result :=
  | StatOk (e : error)
  | StatRaises (e : error).

(** [files] maps the name of each file that can be opened for reading to
    its content; [stat] says what is found at the other paths, a path in
    neither map being one that does not exist ([os.stat] fails with
    ENOENT); [unwritable] gives the paths on which [open(path, 'wb')] raises
    (no permission, missing directory) and with what; [write_error], when
    set, is what [PdfWriter.write] raises after the output file was opened
    (a full disk), and [interrupted] is then what the interrupted write has
    left in that file; [stdout] is what was printed, one entry per
    [print]. *)
Record World := {
  files : gmap string file;
  stat : gmap string stat_result;
  unwritable : gmap string error;
  write_error : option error;
  interrupted : file;
  stdout : list string
}.

Definition set_files (f : gmap string file -> gmap string file) (w : World) : World :=
  {| files := f (files w); stat := stat w; unwritable := unwritable w;
     write_error := write_error w; interrupted := interrupted w; stdout := stdout w |}.

Definition set_stdout (f : list string -> list string) (w : World) : World :=
  {| files := files w; stat := stat w; unwritable := unwritable w;
     write_error := write_error w; interrupted := interrupted w; stdout := f (stdout w) |}.

(** [sys.exit] raises [SystemExit], which is a [BaseException] but not an
    [Exception]; every other exception of the model is an [Exception]. *)
Inductive exn :=
  | SystemExit (code : Z)
  | Exception (e : error).

Inductive result (A : Type) :=
  | Return (a : A)
  | Raise (x : exn).
Arguments Return {A} a.
Arguments Raise {A} x.

Definition M (A : Type) : Type := World -> World * result A.

Definition ret {A} (a : A) : M A := fun w => (w, Return a).
Definition raise {A} (x : exn) : M A := fun w => (w, Raise x).
Definition bind {A B} (m : M A) (k : A -> M B) : M B :=
  fun w => match m w with
           | (w', Return a) => k a w'
           | (w', Raise x) => (w', Raise x)
           end.

Declare Scope py_scope.
Delimit Scope py_scope with py.
Notation "x <- m ;; k" := (bind m (fun x => k))
  (at level 100, m at next level, right associativity) : py_scope.
Notation "m ;; k" := (bind m (fun _ => k))
  (at level 100, right associativity) : py_scope.
Local Open Scope py_scope.

(** [try: body except Exception as e: handler e]. *)
Definition try_except {A} (body : M A) (handler : error -> M A) : M A :=
  fun w => match body w with
           | (w', Raise (Exception e)) => handler e w'
           | r => r
           end.

Definition print (s : string) : M unit :=
  fun w => (set_stdout (fun out => out ++ [s]) w, Return tt).

Definition sys_exit {A} (code : Z) : M A := raise (SystemExit code).

Definition ValueError (m : string) : exn := Exception {| cls := "ValueError"; msg := m |}.

(** The builtin [float] on a command-line argument. *)
Definition py_float (s : string) : M float :=
  match float_of_str s with
  | Some x => ret x
  | None => raise (ValueError ("could not convert string to float: " +:+ repr s))
  end.

(** [Path(p).exists()]: [True] where [os.stat] succeeds, [False] where it
    fails with one of the errors that are ignored, and the [OSError] itself
    where it fails with another. *)
Definition Path_exists (p : string) : M bool :=
  fun w => match files w !! p, stat w !! p with
           | Some _, _ => (w, Return true)
           | None, Some (StatOk _) => (w, Return true)
           | None, Some (StatRaises e) => (w, Raise (Exception e))
           | None, None => (w, Return false)
           end.

Definition empty_file : file :=
  NotPdf {| cls := "EmptyFileError"; msg := "Cannot read an empty file" |}.

(** [open(p, 'wb')]: raises where the path cannot be written, otherwise
    creates the file or truncates it to nothing. *)
Definition open_wb (p : string) : M unit :=
  fun w => match unwritable w !! p with
           | Some e => (w, Raise (Exception e))
           | None => (set_files (fun fs => <[p := empty_file]> fs) w, Return tt)
           end.

(** ** pypdf: reading and writing *)

(** [PdfReader(p)], then [reader.pages]: the reader opens the name as it
    was given and raises what [open] raises where there is no file. *)
Definition PdfReader (p : string) : M (list PageObject) :=
  fun w => match files w !! p with
           | Some (PdfFile pages) => (w, Return pages)
           | Some (NotPdf e) => (w, Raise (Exception e))
           | None =>
               match stat w !! p with
               | Some (StatOk e) | Some (StatRaises e) => (w, Raise (Exception e))
               | None => (w, Raise (Exception
                           {| cls := "FileNotFoundError";
                              msg := "[Errno 2] No such file or directory: " +:+ repr p |}))
               end
           end.

(** [page.mediabox]. *)
Definition get_mediabox (page : PageObject) : M RectangleObject :=
  match mediabox page with
  | Box r => ret r
  | Malformed e => raise (Exception e)
  end.

Definition set_mediabox (page : PageObject) (r : RectangleObject) : PageObject :=
  {| mediabox := Box r; contents := contents page |}.

(** A [PdfWriter] is the list of the pages added so far. *)
Definition PdfWriter : list PageObject := [].
Definition add_page (writer : list PageObject) (page : PageObject) : list PageObject :=
  writer ++ [page].

(** [writer.write(output_file)] on the file opened at [p]. The writer
    streams the header, the objects and the trailer to the file, so an
    error leaves there what was written before it. *)
Definition writer_write (writer : list PageObject) (p : string) : M unit :=
  fun w => match write_error w with
           | Some e => (set_files (fun fs => <[p := interrupted w]> fs) w,
                        Raise (Exception e))
           | None => (set_files (fun fs => <[p := PdfFile writer]> fs) w, Return tt)
           end.

(** ** The script *)

Definition newline : string := String (ascii_of_nat 10) "".

(** The body of the [for] loop of [remove_footer] (lines 34-48): the
    page's box is read, its lower-left y is raised by the footer height with
    no check, both corners are stored back. *)
Definition crop_page (footer_height_points : float) (page : PageObject) : M PageObject :=
  media_box <- get_mediabox page ;;
  let lower_left_x := fst (lower_left media_box) in
  let lower_left_y := snd (lower_left media_box) in
  let upper_right_x := fst (upper_right media_box) in
  let upper_right_y := snd (upper_right media_box) in
  let new_lower_y := Float64.add lower_left_y footer_height_points in
  let media_box := set_lower_left media_box (lower_left_x, new_lower_y) in
  let media_box := set_upper_right media_box (upper_right_x, upper_right_y) in
  ret (set_mediabox page media_box).

(** [for page_num, page in enumerate(reader.pages)], from page [page_num]
    on; [total] is [len(reader.pages)]. *)
Fixpoint process_pages (footer_height_points : float) (total page_num : nat)
    (pages writer : list PageObject) : M (list PageObject) :=
  match pages with
  | [] => ret writer
  | page :: rest =>
      page <- crop_page footer_height_points page ;;
      let writer := add_page writer page in
      print ("Processed page " +:+ pretty (page_num + 1)%nat +:+ "/" +:+ pretty total) ;;
      process_pages footer_height_points total (S page_num) rest writer
  end.

Definition remove_footer (input_pdf output_pdf : string) (footer_height_points : float)
    : M bool :=
  try_except
    (found <- Path_exists input_pdf ;;
     (if negb found
      then print ("Error: Input file '" +:+ input_pdf +:+ "' not found.") ;; sys_exit 1
      else ret tt) ;;
     reader <- PdfReader input_pdf ;;
     let writer := PdfWriter in
     writer <- process_pages footer_height_points (length reader) 0 reader writer ;;
     open_wb output_pdf ;;
     writer_write writer output_pdf ;;
     print (newline +:+ "Success! Footer removed from " +:+ pretty (length reader) +:+ " pages.") ;;
     print ("Output saved to: " +:+ output_pdf) ;;
     ret true)
    (fun e => print ("Error processing PDF: " +:+ msg e) ;; sys_exit 1).

Definition rule : string := "==================================================".

Definition main : M unit :=
  let input_file := "input.pdf" in
  let output_file := "output.pdf" in
  let footer_height := 50%Z in
  print "PDF Footer Remover" ;;
  print rule ;;
  print ("Input file: " +:+ input_file) ;;
  print ("Output file: " +:+ output_file) ;;
  print ("Footer height to remove: " +:+ pretty footer_height +:+ " points") ;;
  print rule ;;
  print "" ;;
  remove_footer input_file output_file (Float64.of_Z footer_height) ;;
  ret tt.

(** The [if __name__ == "__main__":] block, on [sys.argv]. *)
Definition script (argv : list string) : M unit :=
  if (1 <? length argv)%nat then
    let input_pdf := nth 1 argv "" in
    let output_pdf := if (2 <? length argv)%nat then nth 2 argv "" else "output.pdf" in
    footer_height <- (if (3 <? length argv)%nat then py_float (nth 3 argv "")
                      else ret (Float64.of_Z 50)) ;;
    remove_footer input_pdf output_pdf footer_height ;;
    ret tt
  else main.

(** ** A run of the interpreter *)

(** How the process ends: [sys.exit(n)] and a normal end give an exit
    status; an exception that nothing catches prints a traceback and gives
    status 1. *)
Inductive termination :=
  | Exited (status : Z)
  | Traceback (e : error).

Definition exit_status (t : termination) : Z :=
  match t with
  | Exited status => status
  | Traceback _ => 1
  end.

Definition python {A} (prog : M A) (w : World) : World * termination :=
  match prog w with
  | (w', Return _) => (w', Exited 0)
  | (w', Raise (SystemExit code)) => (w', Exited code)
  | (w', Raise (Exception e)) => (w', Traceback e)
  end.

(** ** Notions the statements use *)

(** The exception a path without a file ends in. *)
Definition raised_at (r : stat_result) : error :=
  match r with StatOk e | StatRaises e => e end.

(** The rectangle [crop_page] stores for a page whose box is [r]. *)
Definition cropped (h : float) (r : RectangleObject) : RectangleObject :=
  {| left := left r; bottom := Float64.add (bottom r) h; right := right r; top := top r |}.

Definition has_box (page : PageObject) : bool :=
  match mediabox page with Box _ => true | Malformed _ => false end.

Definition cropped_page (h : float) (page : PageObject) : PageObject :=
  match mediabox page with
  | Box r => set_mediabox page (cropped h r)
  | Malformed _ => page
  end.

(** The lower-left y of a page's box ([None] for a page without one). *)
Definition lower_left_y (page : PageObject) : option float :=
  match mediabox page with Box r => Some (bottom r) | Malformed _ => None end.

(** A rectangle is inverted when its lower edge lies above its upper edge. *)
Definition inverted (r : RectangleObject) : bool := Float64.gt (bottom r) (top r).

(** The world after [lines] were printed. *)
Definition printed (lines : list string) (w : World) : World :=
  set_stdout (fun out => out ++ lines) w.

(** The progress lines of pages [page_num + 1 .. page_num + k] out of [total]. *)
Definition progress (total page_num k : nat) : list string :=
  map (fun i => "Processed page " +:+ pretty (i + 1)%nat +:+ "/" +:+ pretty total)
      (seq page_num k).

Definition success_lines (n : nat) (output_pdf : string) : list string :=
  [newline +:+ "Success! Footer removed from " +:+ pretty n +:+ " pages.";
   "Output saved to: " +:+ output_pdf].

Definition not_found_line (input_pdf : string) : string :=
  "Error: Input file '" +:+ input_pdf +:+ "' not found.".

Definition failure_line (e : error) : string := "Error processing PDF: " +:+ msg e.

(** The generic failure path of [remove_footer]: the handler of
    [except Exception] printed its message last and the process ended with
    status 1. *)
Definition generic_failure (w w' : World) (t : termination) : Prop :=
  t = Exited 1 /\
  exists lines e, stdout w' = stdout w ++ lines ++ [failure_line e].

(** The pages before the first one without a box, and that page's error. *)
Fixpoint first_malformed (pages : list PageObject) : option (nat * error) :=
  match pages with
  | [] => None
  | page :: rest =>
      match mediabox page with
      | Malformed e => Some (0%nat, e)
      | Box _ =>
          match first_malformed rest with
          | Some (k, e) => Some (S k, e)
          | None => None
          end
      end
  end.

(** Two runs in a row, the second on the output of the first. *)
Definition remove_footer_twice (input_pdf middle_pdf output_pdf : string) (h : float)
    : M bool :=
  remove_footer input_pdf middle_pdf h ;;
  remove_footer middle_pdf output_pdf h.

(** The pages of the document stored at [p], if it is one. *)
Definition pages_at (p : string) (w : World) : list PageObject :=
  match files w !! p with
  | Some (PdfFile pages) => pages
  | _ => []
  end.

(** Twice a finite float [(-1)^s * m * 2^e], as both [h + h] and [2 * h]
    compute it: one more bit in a subnormal mantissa, otherwise the next
    exponent, or infinity beyond the largest float. *)
Definition twice (s : bool) (m : positive) (e : Z) : float :=
  if (Zpos (digits2_pos m) <? 53)%Z then S754_finite s (xO m) e
  else if (e + 1 <=? 971)%Z then S754_finite s m (e + 1) else S754_infinity s.

(** Finite and not zero. *)
Definition is_finite_nonzero (x : float) : bool :=
  match x with S754_finite _ _ _ => true | _ => false end.

(** ** Floats as numbers

    What the rounding lemmas speak of: the value of a float as an integer
    number of units of [2^-1074], the least positive float, and the
    rounding of such an integer to 53 bits. *)

Section FloatValues.
Local Open Scope Z_scope.

(** Where the remainder [rho] of a division by [2^k] lies: zero, below,
    at or above one half. *)
Definition location_of (rho k : Z) : location :=
  if rho =? 0 then loc_Exact else loc_Inexact (2 * rho ?= 2 ^ k).

(** The record that [k] right shifts of [n] leave: the quotient, and the
    round and sticky bits of the remainder. *)
Definition shr_represents (n k : Z) (rec : shr_record) : Prop :=
  shr_m rec = n / 2 ^ k /\ loc_of_shr_record rec = location_of (n mod 2 ^ k) k.

(** [n / 2^k] rounded to the nearest integer, ties to even. *)
Definition rne (n k : Z) : Z :=
  round_nearest_even (n / 2 ^ k) (location_of (n mod 2 ^ k) k).

(** The float a rounded mantissa gives, or infinity beyond the range. *)
Definition finite_or_inf (s : bool) (m : positive) (e : Z) : float :=
  if e <=? 971 then S754_finite s m e else S754_infinity s.

(** The largest finite float is below [2^1024]; in units of [2^-1074]: *)
Definition huge : Z := 2 ^ 2098.

(** A float in units of [2^-1074], infinities at [huge]. *)
Definition units (x : float) : Z :=
  match x with
  | S754_zero _ | S754_nan => 0
  | S754_infinity s => cond_Zopp s huge
  | S754_finite s m e => cond_Zopp s (Zpos m * 2 ^ (e + 1074))
  end.

(** A number: valid and not NaN. *)
Definition is_number (x : float) : bool :=
  match x with S754_nan => false | _ => Float64.valid x end.

(** A positive integer of units rounded to 53 bits. *)
Definition round53 (N : Z) : Z :=
  let d := Z.max 0 (Zdigits2 N - 53) in rne N d * 2 ^ d.

(** An integer of units rounded to the nearest float: its value, with
    [huge] for an overflow. *)
Definition rounded (N : Z) : Z :=
  match N with
  | 0 => 0
  | Zpos _ => Z.min (round53 N) huge
  | Zneg p => - Z.min (round53 (Zpos p)) huge
  end.

(** A finite number: a zero or a valid finite float. *)
Definition is_real (x : float) : bool :=
  match x with
  | S754_zero _ => true
  | S754_finite _ m e => bounded Float64.prec Float64.emax m e
  | _ => false
  end.

End FloatValues.

(** ** Sample inputs *)

Definition rect (a b c d : Z) : RectangleObject :=
  {| left := Float64.of_Z a; bottom := Float64.of_Z b;
     right := Float64.of_Z c; top := Float64.of_Z d |}.

Definition page_of (r : RectangleObject) (c : string) : PageObject :=
  {| mediabox := Box r; contents := c |}.

(** A PDF cut short, as an interrupted write leaves it. *)
Definition cut_short : file :=
  NotPdf {| cls := "PdfReadError"; msg := "EOF marker not found" |}.

(** What [open('')] raises: there is no file of that name, while
    [Path('')] is the current directory. *)
Definition no_such_file : error :=
  {| cls := "FileNotFoundError"; msg := "[Errno 2] No such file or directory: ''" |}.

(** A name of 300 characters, more than a file name may have, and what
    [os.stat] raises on it. *)
Definition long_name : string := string_of_list_ascii (repeat "a"%char 300).
Definition name_too_long : error :=
  {| cls := "OSError"; msg := "[Errno 36] File name too long: " +:+ repr long_name |}.

(** A world whose only file is [input.pdf], with nothing printed yet. *)
Definition world_with (f : file) (locked : gmap string error) (fault : option error)
    : World :=
  {| files := {[ "input.pdf" := f ]};
     stat := {[ "" := StatOk no_such_file; long_name := StatRaises name_too_long ]};
     unwritable := locked; write_error := fault; interrupted := cut_short;
     stdout := [] |}.

(** The same where [input.pdf] is a PDF with the given pages and nothing
    goes wrong when writing. *)
Definition world_of (pages : list PageObject) : World :=
  world_with (PdfFile pages) ∅ None.

(** US Letter, 612 x 792 points. *)
Definition letter : PageObject := page_of (rect 0 0 612 792) "page 1".


(** What pypdf and the operating system raise on a corrupt input, an output
    path without write permission and a full disk. *)
Definition corrupt : error := {| cls := "PdfReadError"; msg := "EOF marker not found" |}.
Definition denied : error :=
  {| cls := "PermissionError"; msg := "[Errno 13] Permission denied: 'output.pdf'" |}.
Definition disk_full : error :=
  {| cls := "OSError"; msg := "[Errno 28] No space left on device" |}.

(** A letter page already cropped by one inch: its lower edge is at 72. *)
Definition raised_letter : PageObject := page_of (rect 0 72 612 792) "page 1".

(** The floats [0.1] and [-1e-15], as [float] reads them. *)
Definition tenth : float := Float64.of_decimal false 1 (-1).
Definition minus_tiny : float := Float64.of_decimal true 1 (-15).

(** A very tall page, where floats are two units apart, and a footer
    height just above its height. *)
Definition tall : RectangleObject := rect 0 3 612 10000000000000004.
Definition above_tall : float := Float64.of_Z 10000000000000002.

(** * Properties *)

(** ** Printing *)

Lemma printed_app l1 l2 w : printed l2 (printed l1 w) = printed (l1 ++ l2) w.
Proof.
  unfold printed, set_stdout; simpl. f_equal. symmetry. apply app_assoc.
Qed.

Lemma printed_nil w : printed [] w = w.
Proof.
  destruct w; unfold printed, set_stdout; simpl. f_equal. apply app_nil_r.
Qed.

Lemma bind_print {A} s (k : M A) w : (print s ;; k) w = k (printed [s] w).
Proof. reflexivity. Qed.

Lemma progress_cons total n k :
  progress total n (S k) =
  ("Processed page " +:+ pretty (n + 1)%nat +:+ "/" +:+ pretty total) :: progress total (S n) k.
Proof. reflexivity. Qed.

(** ** The loop *)

Lemma crop_page_box h page r w :
  mediabox page = Box r ->
  crop_page h page w = (w, Return (set_mediabox page (cropped h r))).
Proof.
  intros Hbox. unfold crop_page, get_mediabox, bind. rewrite Hbox. reflexivity.
Qed.

Lemma crop_page_malformed h page e w :
  mediabox page = Malformed e ->
  crop_page h page w = (w, Raise (Exception e)).
Proof.
  intros Hbox. unfold crop_page, get_mediabox, bind. rewrite Hbox. reflexivity.
Qed.

(** With a box on every page the loop adds every page, cropped, in order. *)
Lemma process_pages_ok h total pages : forall n writer w,
  forallb has_box pages = true ->
  process_pages h total n pages writer w =
  (printed (progress total n (length pages)) w,
   Return (writer ++ map (cropped_page h) pages)).
Proof.
  induction pages as [|page rest IH]; intros n writer w Hall; simpl.
  - rewrite printed_nil, app_nil_r. reflexivity.
  - simpl in Hall. apply andb_true_iff in Hall as [Hpage Hrest].
    unfold has_box in Hpage. destruct (mediabox page) as [r|e] eqn:Hbox; [|discriminate].
    unfold bind at 1. rewrite (crop_page_box _ _ r) by exact Hbox.
    rewrite bind_print, IH by exact Hrest.
    rewrite printed_app, progress_cons. unfold add_page, cropped_page.
    rewrite Hbox, <- app_assoc. reflexivity.
Qed.

(** At the first page without a box the loop raises that page's
    exception, after the progress lines of the pages before it. *)
Lemma process_pages_malformed h total pages : forall n writer w k e,
  first_malformed pages = Some (k, e) ->
  process_pages h total n pages writer w =
  (printed (progress total n k) w, Raise (Exception e)).
Proof.
  induction pages as [|page rest IH]; intros n writer w k e Hfirst; simpl in *.
  - discriminate.
  - destruct (mediabox page) as [r|e'] eqn:Hbox.
    + destruct (first_malformed rest) as [[k' e'']|] eqn:Hrest; [|discriminate].
      injection Hfirst as <- <-.
      unfold bind at 1. rewrite (crop_page_box _ _ r) by exact Hbox.
      rewrite bind_print, (IH _ _ _ k' e'') by reflexivity.
      rewrite printed_app, progress_cons. reflexivity.
    + injection Hfirst as <- <-.
      unfold bind at 1. rewrite (crop_page_malformed _ _ e') by exact Hbox.
      rewrite printed_nil. reflexivity.
Qed.

Lemma first_malformed_none pages :
  first_malformed pages = None <-> forallb has_box pages = true.
Proof.
  induction pages as [|page rest IH]; simpl; [tauto|].
  unfold has_box. destruct (mediabox page); simpl.
  - destruct (first_malformed rest) as [[k e]|]; rewrite <- IH; split; congruence.
  - split; discriminate.
Qed.

(** ** The ways [remove_footer] ends *)

Lemma Path_exists_found p f w :
  files w !! p = Some f -> Path_exists p w = (w, Return true).
Proof.
  intros Hf. unfold Path_exists. rewrite Hf. reflexivity.
Qed.

Lemma Path_exists_missing p w :
  files w !! p = None -> stat w !! p = None -> Path_exists p w = (w, Return false).
Proof.
  intros Hf Hs. unfold Path_exists. rewrite Hf, Hs. reflexivity.
Qed.

(** The statements of [remove_footer] up to [reader = PdfReader(input_pdf)],
    on an input that exists and is a PDF. *)
Ltac read_input Hf :=
  unfold remove_footer, try_except, bind at 1;
  rewrite (Path_exists_found _ _ _ Hf); simpl;
  unfold bind at 1; unfold ret at 1; unfold bind at 1; unfold PdfReader at 1;
  rewrite Hf.

(** The loop over pages that all have a box, then [open(output_pdf, 'wb')]. *)
Ltac open_output Hall Hout :=
  unfold bind at 1; rewrite (process_pages_ok _ _ _ _ _ _ Hall);
  unfold bind at 1; unfold open_wb at 1; simpl; rewrite Hout.

Lemma remove_footer_missing input output h w :
  files w !! input = None ->
  stat w !! input = None ->
  remove_footer input output h w =
  (printed [not_found_line input] w, Raise (SystemExit 1)).
Proof.
  intros Hf Hs. unfold remove_footer, try_except, bind at 1.
  rewrite (Path_exists_missing _ _ Hf Hs). reflexivity.
Qed.

(** No file at the input path, and [os.stat] does not answer ENOENT: the
    error of [Path.exists] or of [open] ends in the handler. *)
Lemma remove_footer_no_file input output h w r :
  files w !! input = None ->
  stat w !! input = Some r ->
  remove_footer input output h w =
  (printed [failure_line (raised_at r)] w, Raise (SystemExit 1)).
Proof.
  intros Hf Hs. unfold remove_footer, try_except, bind at 1.
  unfold Path_exists. rewrite Hf, Hs. destruct r as [e|e]; simpl.
  - unfold bind, ret, PdfReader. rewrite Hf, Hs. reflexivity.
  - reflexivity.
Qed.

(** The inputs without a file that are not reported as "not found": the
    empty name, which [Path] takes for the current directory, and a name
    too long for [os.stat]. *)
Example unfound_inputs_in_the_handler :
  let run input := remove_footer input "output.pdf" (Float64.of_Z 50) (world_of [letter]) in
  run "" = (printed ["Error processing PDF: [Errno 2] No such file or directory: ''"]
              (world_of [letter]), Raise (SystemExit 1)) /\
  run long_name = (printed ["Error processing PDF: " +:+ msg name_too_long]
                     (world_of [letter]), Raise (SystemExit 1)).
Proof.
  split; [apply (remove_footer_no_file _ _ _ _ (StatOk no_such_file))
         |apply (remove_footer_no_file _ _ _ _ (StatRaises name_too_long))]; reflexivity.
Qed.

Lemma remove_footer_unreadable input output h w e :
  files w !! input = Some (NotPdf e) ->
  remove_footer input output h w =
  (printed [failure_line e] w, Raise (SystemExit 1)).
Proof.
  intros Hf. unfold remove_footer, try_except, bind at 1.
  rewrite (Path_exists_found _ _ _ Hf). simpl.
  unfold bind, ret, PdfReader. rewrite Hf. reflexivity.
Qed.

Lemma remove_footer_bad_page input output h w doc k e :
  files w !! input = Some (PdfFile doc) ->
  first_malformed doc = Some (k, e) ->
  remove_footer input output h w =
  (printed (progress (length doc) 0 k ++ [failure_line e]) w, Raise (SystemExit 1)).
Proof.
  intros Hf Hbad. read_input Hf.
  unfold bind at 1. rewrite (process_pages_malformed _ _ _ _ _ _ k e Hbad).
  rewrite bind_print. unfold sys_exit, raise. rewrite printed_app. reflexivity.
Qed.

Lemma remove_footer_unwritable input output h w doc e :
  files w !! input = Some (PdfFile doc) ->
  forallb has_box doc = true ->
  unwritable w !! output = Some e ->
  remove_footer input output h w =
  (printed (progress (length doc) 0 (length doc) ++ [failure_line e]) w,
   Raise (SystemExit 1)).
Proof.
  intros Hf Hall Hout. read_input Hf. open_output Hall Hout.
  rewrite bind_print. unfold sys_exit, raise. rewrite printed_app. reflexivity.
Qed.

Lemma remove_footer_write_error input output h w doc e :
  files w !! input = Some (PdfFile doc) ->
  forallb has_box doc = true ->
  unwritable w !! output = None ->
  write_error w = Some e ->
  remove_footer input output h w =
  (printed (progress (length doc) 0 (length doc) ++ [failure_line e])
     (set_files (fun fs => <[output := interrupted w]> fs) w),
   Raise (SystemExit 1)).
Proof.
  intros Hf Hall Hout Hwrite. read_input Hf. open_output Hall Hout.
  unfold bind at 1. unfold writer_write at 1. simpl. rewrite Hwrite.
  rewrite bind_print. unfold sys_exit, raise.
  unfold printed, set_stdout, set_files; simpl.
  rewrite insert_insert_eq, <- app_assoc. reflexivity.
Qed.

Lemma remove_footer_ok input output h w doc :
  files w !! input = Some (PdfFile doc) ->
  forallb has_box doc = true ->
  unwritable w !! output = None ->
  write_error w = None ->
  remove_footer input output h w =
  (printed (progress (length doc) 0 (length doc) ++ success_lines (length doc) output)
     (set_files (fun fs => <[output := PdfFile (map (cropped_page h) doc)]> fs) w),
   Return true).
Proof.
  intros Hf Hall Hout Hwrite. read_input Hf. open_output Hall Hout.
  unfold bind at 1. unfold writer_write at 1. simpl. rewrite Hwrite.
  rewrite !bind_print. unfold ret.
  unfold printed, set_stdout, set_files, success_lines; simpl.
  rewrite insert_insert_eq, <- !app_assoc. reflexivity.
Qed.

(** ** What a successful run writes *)

Lemma cropped_page_lookup h (doc : list PageObject) i page r :
  doc !! i = Some page -> mediabox page = Box r ->
  map (cropped_page h) doc !! i = Some (set_mediabox page (cropped h r)).
Proof.
  intros Hi Hbox. change (map (cropped_page h) doc) with (cropped_page h <$> doc).
  rewrite list_lookup_fmap, Hi. simpl. unfold cropped_page. rewrite Hbox. reflexivity.
Qed.

Lemma cropped_page_contents h page : contents (cropped_page h page) = contents page.
Proof. unfold cropped_page. destruct (mediabox page); reflexivity. Qed.

Lemma cropped_page_has_box h (doc : list PageObject) :
  forallb has_box doc = true -> forallb has_box (map (cropped_page h) doc) = true.
Proof.
  induction doc as [|page rest IH]; simpl; [reflexivity|].
  intros [Hpage Hrest]%andb_true_iff. rewrite (IH Hrest), andb_true_r.
  unfold has_box, cropped_page in *. destruct (mediabox page); [reflexivity|discriminate].
Qed.

Lemma letter_cropped :
  map (cropped_page (Float64.of_Z 50)) [letter] = [page_of (rect 0 50 612 792) "page 1"].
Proof. vm_compute. reflexivity. Qed.

(** C1. Under a successful run (the input is a PDF whose pages all have a
    media box, the output can be written), page [i] of the output has the
    rectangle of page [i] of the input with the same lower-left x and the
    same upper-right corner, and with lower-left y the input's plus the
    footer height (Python's float addition). In particular a single
    612 x 792 page cropped by 50 gets the rectangle (0, 50) - (612, 792). *)
Theorem remove_footer_output_rectangle :
  (forall (w : World) (input output : string) (h : float) (doc : list PageObject),
      files w !! input = Some (PdfFile doc) ->
      forallb has_box doc = true ->
      unwritable w !! output = None ->
      write_error w = None ->
      exists w' out,
        remove_footer input output h w = (w', Return true) /\
        files w' !! output = Some (PdfFile out) /\
        forall i page r,
          doc !! i = Some page -> mediabox page = Box r ->
          exists page' r',
            out !! i = Some page' /\ mediabox page' = Box r' /\
            fst (lower_left r') = fst (lower_left r) /\
            snd (lower_left r') = Float64.add (snd (lower_left r)) h /\
            upper_right r' = upper_right r) /\
  (exists w',
      remove_footer "input.pdf" "output.pdf" (Float64.of_Z 50) (world_of [letter])
      = (w', Return true) /\
      files w' !! "output.pdf" = Some (PdfFile [page_of (rect 0 50 612 792) "page 1"])).
Proof.
  split.
  - intros w input output h doc Hf Hall Hout Hwrite.
    eexists _, _. split; [apply (remove_footer_ok _ _ _ _ doc); assumption|].
    split; [simpl; apply lookup_insert_eq|].
    intros i page r Hi Hbox. exists (set_mediabox page (cropped h r)), (cropped h r).
    split; [apply cropped_page_lookup; assumption|]. repeat split.
  - eexists. split.
    + apply (remove_footer_ok _ _ _ _ [letter]); reflexivity.
    + cbn [files set_files printed set_stdout].
      rewrite lookup_insert_eq, letter_cropped. reflexivity.
Qed.

Lemma remove_footer_output_rectangle_witness :
  exists w' out,
    remove_footer "input.pdf" "output.pdf" (Float64.of_Z 50) (world_of [letter; letter])
    = (w', Return true) /\
    files w' !! "output.pdf" = Some (PdfFile out) /\
    forall i page r,
      [letter; letter] !! i = Some page -> mediabox page = Box r ->
      exists page' r',
        out !! i = Some page' /\ mediabox page' = Box r' /\
        fst (lower_left r') = fst (lower_left r) /\
        snd (lower_left r') = Float64.add (snd (lower_left r)) (Float64.of_Z 50) /\
        upper_right r' = upper_right r.
Proof.
  apply (proj1 remove_footer_output_rectangle (world_of [letter; letter])
           "input.pdf" "output.pdf" (Float64.of_Z 50) [letter; letter]);
    reflexivity.
Defined.

(** C2. Under a successful run, for every footer height (so also for
    every one smaller than each page's height), the output document has as
    many pages as the input and holds the input's pages in document
    order: page [i] of the output is page [i] of the input, cropped. *)
Theorem remove_footer_preserves_pages (w : World) (input output : string) (h : float)
    (doc : list PageObject) :
  files w !! input = Some (PdfFile doc) ->
  forallb has_box doc = true ->
  unwritable w !! output = None ->
  write_error w = None ->
  exists w' out,
    remove_footer input output h w = (w', Return true) /\
    files w' !! output = Some (PdfFile out) /\
    length out = length doc /\
    map contents out = map contents doc /\
    forall i, out !! i = cropped_page h <$> doc !! i.
Proof.
  intros Hf Hall Hout Hwrite.
  eexists _, _. split; [apply (remove_footer_ok _ _ _ _ doc); assumption|].
  split; [simpl; apply lookup_insert_eq|].
  split; [apply length_map|]. split.
  - rewrite map_map. apply map_ext. apply cropped_page_contents.
  - intros i. change (map (cropped_page h) doc) with (cropped_page h <$> doc).
    apply list_lookup_fmap.
Qed.

Lemma remove_footer_preserves_pages_witness :
  exists w' out,
    remove_footer "input.pdf" "output.pdf" (Float64.of_Z 50)
      (world_of [letter; page_of (rect 0 0 595 842) "page 2"])
    = (w', Return true) /\
    files w' !! "output.pdf" = Some (PdfFile out) /\
    length out = 2%nat /\
    map contents out = ["page 1"; "page 2"] /\
    forall i, out !! i =
      cropped_page (Float64.of_Z 50) <$> [letter; page_of (rect 0 0 595 842) "page 2"] !! i.
Proof.
  apply (remove_footer_preserves_pages
           (world_of [letter; page_of (rect 0 0 595 842) "page 2"])
           "input.pdf" "output.pdf" (Float64.of_Z 50)
           [letter; page_of (rect 0 0 595 842) "page 2"]);
    reflexivity.
Defined.

(** ** Exit statuses *)

Lemma python_returned {A} (prog : M A) w w' a :
  prog w = (w', Return a) -> python prog w = (w', Exited 0).
Proof. intros H. unfold python. rewrite H. reflexivity. Qed.

Lemma python_exited {A} (prog : M A) w w' code :
  prog w = (w', Raise (SystemExit code)) -> python prog w = (w', Exited code).
Proof. intros H. unfold python. rewrite H. reflexivity. Qed.

Lemma python_then_ret {A} (prog : M A) w :
  python (prog ;; ret tt) w = python prog w.
Proof.
  unfold python, bind. destruct (prog w) as [w' [a|[code|e]]]; reflexivity.
Qed.

(** C5. When there is no file at the input path, [remove_footer] reports
    an error in one line, the process ends with exit status 1, and the file
    system is as before: no output file was created or touched. The line
    is the "not found" error when [Path.exists] answers [False]; when
    [os.stat] finds something that cannot be opened (the empty name, a
    directory) or raises an error that [Path.exists] lets through (a name
    that is too long), it is the line of the handler with that error. *)
Theorem missing_input_exits_1 (w : World) (input output : string) (h : float) :
  files w !! input = None ->
  exists w' line,
    python (remove_footer input output h) w = (w', Exited 1) /\
    stdout w' = stdout w ++ [line] /\
    line = match stat w !! input with
           | None => "Error: Input file '" +:+ input +:+ "' not found."
           | Some (StatOk e) | Some (StatRaises e) => "Error processing PDF: " +:+ msg e
           end /\
    files w' = files w /\
    files w' !! output = files w !! output.
Proof.
  intros Hf. destruct (stat w !! input) as [r|] eqn:Hs.
  - exists (printed [failure_line (raised_at r)] w), (failure_line (raised_at r)).
    split; [apply python_exited, remove_footer_no_file; assumption|].
    destruct r; repeat split.
  - exists (printed [not_found_line input] w), (not_found_line input).
    split; [apply python_exited, remove_footer_missing; assumption|].
    repeat split.
Qed.

Lemma missing_input_exits_1_witness :
  exists w',
    python (remove_footer "missing.pdf" "output.pdf" (Float64.of_Z 50)) (world_of [letter])
    = (w', Exited 1) /\
    stdout w' = stdout (world_of [letter]) ++ ["Error: Input file 'missing.pdf' not found."] /\
    files w' = files (world_of [letter]) /\
    files w' !! "output.pdf" = files (world_of [letter]) !! "output.pdf".
Proof.
  destruct (missing_input_exits_1 (world_of [letter]) "missing.pdf" "output.pdf"
              (Float64.of_Z 50) eq_refl)
    as (w' & line & Hrun & Hout & Hline & Hfiles & Hfile).
  exists w'. rewrite Hline in Hout.
  split; [exact Hrun|]. split; [exact Hout|]. split; [exact Hfiles|exact Hfile].
Defined.

(** C7. On an input document without pages, with a writable output,
    [remove_footer] returns [True] (exit status 0), prints no error, only
    the two success lines, and the output path holds a document with no
    pages. *)
Theorem zero_pages_ok (w : World) (input output : string) (h : float) :
  files w !! input = Some (PdfFile []) ->
  unwritable w !! output = None ->
  write_error w = None ->
  exists w',
    remove_footer input output h w = (w', Return true) /\
    python (remove_footer input output h) w = (w', Exited 0) /\
    files w' !! output = Some (PdfFile []) /\
    stdout w' = stdout w ++
      [newline +:+ "Success! Footer removed from 0 pages."; "Output saved to: " +:+ output].
Proof.
  intros Hf Hout Hwrite.
  pose proof (remove_footer_ok input output h w [] Hf eq_refl Hout Hwrite) as Hrun.
  eexists. split; [exact Hrun|]. split; [exact (python_returned _ _ _ _ Hrun)|].
  split; [simpl; apply lookup_insert_eq|reflexivity].
Qed.

Lemma zero_pages_ok_witness :
  exists w',
    remove_footer "input.pdf" "output.pdf" (Float64.of_Z 50) (world_of []) = (w', Return true) /\
    python (remove_footer "input.pdf" "output.pdf" (Float64.of_Z 50)) (world_of [])
    = (w', Exited 0) /\
    files w' !! "output.pdf" = Some (PdfFile []) /\
    stdout w' = stdout (world_of []) ++
      [newline +:+ "Success! Footer removed from 0 pages."; "Output saved to: " +:+ "output.pdf"].
Proof.
  apply (zero_pages_ok (world_of []) "input.pdf" "output.pdf" (Float64.of_Z 50)); reflexivity.
Defined.

(** The lines [main] prints before it calls [remove_footer]. *)
Lemma main_banner w :
  main w =
  (remove_footer "input.pdf" "output.pdf" (Float64.of_Z 50) ;; ret tt)
    (printed ["PDF Footer Remover"; rule; "Input file: input.pdf"; "Output file: output.pdf";
              "Footer height to remove: 50 points"; rule; ""] w).
Proof.
  unfold main. rewrite !bind_print, !printed_app. reflexivity.
Qed.

(** C9. Invoked with no command-line argument ([sys.argv] holds the
    program name only), the script prints its banner and runs
    [remove_footer("input.pdf", "output.pdf", 50)]: the process ends as that
    call does, which is also how it ends when the three defaults are given
    on the command line. *)
Theorem no_arguments_run_defaults (prog : string) (w : World) :
  let banner := ["PDF Footer Remover"; rule; "Input file: input.pdf";
                 "Output file: output.pdf"; "Footer height to remove: 50 points";
                 rule; ""] in
  python (script [prog]) w =
    python (remove_footer "input.pdf" "output.pdf" (Float64.of_Z 50)) (printed banner w) /\
  python (script [prog]) w =
    python (script [prog; "input.pdf"; "output.pdf"; "50"]) (printed banner w).
Proof.
  intros banner. assert (Hmain : python (script [prog]) w =
    python (remove_footer "input.pdf" "output.pdf" (Float64.of_Z 50)) (printed banner w)).
  { change (script [prog]) with main. unfold python at 1. rewrite main_banner.
    apply python_then_ret. }
  split; [exact Hmain|]. rewrite Hmain. symmetry.
  change (script [prog; "input.pdf"; "output.pdf"; "50"])
    with (footer_height <- py_float "50" ;;
          remove_footer "input.pdf" "output.pdf" footer_height ;; ret tt).
  apply python_then_ret.
Qed.



(** ** Failure paths of the command line *)

Lemma script_with_height prog input output a3 rest x w :
  float_of_str a3 = Some x ->
  python (script (prog :: input :: output :: a3 :: rest)) w =
  python (remove_footer input output x) w.
Proof.
  intros Hx.
  change (script (prog :: input :: output :: a3 :: rest))
    with (footer_height <- py_float a3 ;; remove_footer input output footer_height ;; ret tt).
  unfold py_float. rewrite Hx. apply python_then_ret.
Qed.

Lemma script_malformed_height prog input output a3 rest w :
  float_of_str a3 = None ->
  python (script (prog :: input :: output :: a3 :: rest)) w =
  (w, Traceback {| cls := "ValueError";
                   msg := "could not convert string to float: " +:+ repr a3 |}).
Proof.
  intros Hx.
  change (script (prog :: input :: output :: a3 :: rest))
    with (footer_height <- py_float a3 ;; remove_footer input output footer_height ;; ret tt).
  unfold py_float. rewrite Hx. reflexivity.
Qed.

(** C8, as stated, fails: a footer height that is no number is converted
    at line 91, outside the [try] of [remove_footer]. The [ValueError]
    reaches the top level: nothing is printed, [remove_footer] is not
    called, and the run ends in a traceback, not in the handler. *)
Lemma malformed_height_is_not_caught :
  let argv := ["pdf_footer_remover.py"; "input.pdf"; "output.pdf"; "abc"] in
  let w := world_of [letter] in
  python (script argv) w =
    (w, Traceback {| cls := "ValueError";
                     msg := "could not convert string to float: 'abc'" |}) /\
  ~ generic_failure w (fst (python (script argv) w)) (snd (python (script argv) w)).
Proof.
  intros argv w.
  assert (Hrun : python (script argv) w =
    (w, Traceback {| cls := "ValueError";
                     msg := "could not convert string to float: 'abc'" |}))
    by (apply (script_malformed_height _ _ _ "abc"); reflexivity).
  split; [exact Hrun|]. rewrite Hrun. intros [Hexit _]. discriminate Hexit.
Qed.

(** C8, amended. A corrupt PDF and an output path that cannot be opened
    take the same path: the handler of [except Exception] prints
    "Error processing PDF: " and the exception's message, the process exits
    with status 1 and no file is touched; only the message tells them
    apart. A footer height that is no number takes another path: the
    [ValueError] of [float] is raised before [remove_footer] is called and
    is not caught; the world is unchanged and the exit status is 1. *)
Theorem failure_paths (w : World) (prog input output a3 : string) (rest : list string) :
  let run := python (script (prog :: input :: output :: a3 :: rest)) w in
  (forall x e,
      float_of_str a3 = Some x ->
      files w !! input = Some (NotPdf e) ->
      generic_failure w (fst run) (snd run) /\
      stdout (fst run) = stdout w ++ [failure_line e] /\
      files (fst run) = files w) /\
  (forall x doc e,
      float_of_str a3 = Some x ->
      files w !! input = Some (PdfFile doc) ->
      forallb has_box doc = true ->
      unwritable w !! output = Some e ->
      generic_failure w (fst run) (snd run) /\
      stdout (fst run) = stdout w ++ progress (length doc) 0 (length doc) ++ [failure_line e] /\
      files (fst run) = files w) /\
  (float_of_str a3 = None ->
      run = (w, Traceback {| cls := "ValueError";
                             msg := "could not convert string to float: " +:+ repr a3 |}) /\
      ~ generic_failure w (fst run) (snd run) /\
      exit_status (snd run) = 1%Z).
Proof.
  intros run. repeat apply conj.
  - intros x e Hx Hf. subst run.
    rewrite (script_with_height _ _ _ _ _ x) by exact Hx.
    rewrite (python_exited _ _ _ _ (remove_footer_unreadable input output x w e Hf)).
    repeat split. exists [], e. reflexivity.
  - intros x doc e Hx Hf Hall Hout. subst run.
    rewrite (script_with_height _ _ _ _ _ x) by exact Hx.
    rewrite (python_exited _ _ _ _
               (remove_footer_unwritable input output x w doc e Hf Hall Hout)).
    repeat split. exists (progress (length doc) 0 (length doc)), e. reflexivity.
  - intros Hx. subst run. rewrite (script_malformed_height _ _ _ _ _ _ Hx).
    repeat split. intros [Hexit _]. discriminate Hexit.
Qed.

Lemma failure_paths_witness :
  let argv := ["pdf_footer_remover.py"; "input.pdf"; "output.pdf"; "50"] in
  let bad := ["pdf_footer_remover.py"; "input.pdf"; "output.pdf"; "abc"] in
  let w1 := world_with (NotPdf corrupt) ∅ None in
  let w2 := world_with (PdfFile [letter]) {[ "output.pdf" := denied ]} None in
  let w3 := world_of [letter] in
  (generic_failure w1 (fst (python (script argv) w1)) (snd (python (script argv) w1)) /\
   stdout (fst (python (script argv) w1)) = stdout w1 ++ [failure_line corrupt] /\
   files (fst (python (script argv) w1)) = files w1) /\
  (generic_failure w2 (fst (python (script argv) w2)) (snd (python (script argv) w2)) /\
   stdout (fst (python (script argv) w2)) =
     stdout w2 ++ progress 1 0 1 ++ [failure_line denied] /\
   files (fst (python (script argv) w2)) = files w2) /\
  (python (script bad) w3 =
     (w3, Traceback {| cls := "ValueError";
                       msg := "could not convert string to float: " +:+ repr "abc" |}) /\
   ~ generic_failure w3 (fst (python (script bad) w3)) (snd (python (script bad) w3)) /\
   exit_status (snd (python (script bad) w3)) = 1%Z).
Proof.
  intros argv bad w1 w2 w3. split; [|split].
  - apply (proj1 (failure_paths w1 "pdf_footer_remover.py" "input.pdf" "output.pdf" "50" [])
             (Float64.of_Z 50) corrupt); reflexivity.
  - apply (proj1 (proj2 (failure_paths w2 "pdf_footer_remover.py" "input.pdf" "output.pdf"
                           "50" []))
             (Float64.of_Z 50) [letter] denied); reflexivity.
  - apply (proj2 (proj2 (failure_paths w3 "pdf_footer_remover.py" "input.pdf" "output.pdf"
                           "abc" []))); reflexivity.
Defined.

(** ** Float facts at the origin *)

(** On a page whose lower edge is at 0 the addition is exact, so comparing
    the footer height with the page height decides whether the cropped
    rectangle is inverted. *)
Lemma origin_inverted (b t h : float) :
  Float64.is_zero b = true ->
  Float64.gt h (Float64.sub t b) = true ->
  Float64.gt (Float64.add b h) t = true.
Proof.
  unfold Float64.gt, Float64.add, Float64.sub, SFltb.
  destruct b as [sb| | |]; try discriminate; intros _.
  destruct t as [st|st| |st mt et], h as [sh|sh| |sh mh eh];
    try destruct sb; try destruct st; try destruct sh; simpl;
    try discriminate; try reflexivity; try (intros H; exact H).
Qed.

Lemma origin_lowered (b h : float) :
  Float64.is_zero b = true ->
  Float64.lt h Float64.zero = true ->
  Float64.lt (Float64.add b h) b = true.
Proof.
  unfold Float64.lt, Float64.add, Float64.zero, SFltb.
  destruct b as [sb| | |]; try discriminate; intros _.
  destruct h as [sh|sh| |sh mh eh];
    try destruct sb; try destruct sh; simpl;
    try discriminate; try reflexivity.
Qed.

(** ** Doubling a float *)

(** A valid finite float is normal (53 bits) or subnormal (least exponent). *)
Lemma digits_canonical m e :
  bounded Float64.prec Float64.emax m e = true ->
  (e <= 971 /\
   ((Zpos (digits2_pos m) = 53 /\ -1074 <= e) \/ (Zpos (digits2_pos m) < 53 /\ e = -1074)))%Z.
Proof.
  unfold bounded, canonical_mantissa, fexp, emin, Float64.prec, Float64.emax.
  intros [Hc He]%andb_true_iff. apply Z.eqb_eq in Hc. apply Z.leb_le in He.
  pose proof (Pos2Z.is_pos (digits2_pos m)). lia.
Qed.

(** The exponent a mantissa is rounded to, by linear arithmetic. *)
Ltac fexp_lia := unfold fexp, emin, Float64.prec, Float64.emax; lia.

(** Rounding an exact mantissa starts with a right shift by [n] bits. *)
Lemma shr_fexp_exact (M : positive) (E n : Z) :
  (fexp Float64.prec Float64.emax (Zpos (digits2_pos M) + E) - E = n)%Z ->
  shr_fexp Float64.prec Float64.emax (Zpos M) E loc_Exact =
  shr {| shr_m := Zpos M; shr_r := false; shr_s := false |} E n.
Proof.
  intros Hn. unfold shr_fexp. cbn [Zdigits2 shr_record_of_loc]. rewrite Hn. reflexivity.
Qed.

Lemma add_self_finite s m e :
  bounded Float64.prec Float64.emax m e = true ->
  Float64.add (S754_finite s m e) (S754_finite s m e) = twice s m e.
Proof.
  intros Hb. destruct (digits_canonical m e Hb) as [He Hd].
  unfold Float64.add, SFadd, twice.
  rewrite Z.min_id. unfold shl_align at 1 2. rewrite Z.sub_diag. cbn [fst].
  replace (cond_Zopp s (Z.pos m) + cond_Zopp s (Z.pos m))%Z with (cond_Zopp s (Z.pos m~0))
    by (destruct s; simpl; lia).
  replace (binary_normalize Float64.prec Float64.emax (cond_Zopp s (Z.pos m~0)) e false)
    with (binary_round Float64.prec Float64.emax s (m~0) e) by (destruct s; reflexivity).
  unfold binary_round, binary_round_aux.
  assert (Hd1 : Zpos (digits2_pos m~0) = (Zpos (digits2_pos m) + 1)%Z)
    by (cbn [digits2_pos]; lia).
  destruct Hd as [[Hd Hemin]|[Hd ->]].
  - replace (shl_align m~0 e (fexp Float64.prec Float64.emax (Z.pos (digits2_pos m~0) + e)))
      with (xO m, e).
    2:{ unfold shl_align.
        replace (fexp Float64.prec Float64.emax (Z.pos (digits2_pos m~0) + e) - e)%Z
          with 1%Z; [reflexivity|].
        rewrite Hd1; fexp_lia. }
    rewrite (shr_fexp_exact (xO m) _ 1)
      by (rewrite Hd1; fexp_lia).
    cbn [shr SpecFloat.iter_pos shr_1 orb shr_m loc_of_shr_record round_nearest_even].
    rewrite (shr_fexp_exact m _ 0)
      by fexp_lia.
    rewrite Hd. reflexivity.
  - replace (shl_align m~0 (-1074)
               (fexp Float64.prec Float64.emax (Z.pos (digits2_pos m~0) + -1074)))
      with (xO m, (-1074)%Z).
    2:{ unfold shl_align.
        replace (fexp Float64.prec Float64.emax (Z.pos (digits2_pos m~0) + -1074) - -1074)%Z
          with 0%Z; [reflexivity|].
        rewrite Hd1; fexp_lia. }
    rewrite (shr_fexp_exact (xO m) _ 0)
      by (rewrite Hd1; fexp_lia).
    cbn [shr shr_m loc_of_shr_record round_nearest_even].
    rewrite (shr_fexp_exact (xO m) _ 0)
      by (rewrite Hd1; fexp_lia).
    apply Z.ltb_lt in Hd. rewrite Hd. reflexivity.
Qed.

Lemma mul_two_finite s m e :
  bounded Float64.prec Float64.emax m e = true ->
  Float64.mul (Float64.of_Z 2) (S754_finite s m e) = twice s m e.
Proof.
  intros Hb. destruct (digits_canonical m e Hb) as [He Hd].
  unfold Float64.mul, SFmul, twice.
  change (Float64.of_Z 2) with (S754_finite false 4503599627370496 (-51)).
  cbn [xorb].
  change (4503599627370496 * m)%positive with (Pos.iter xO m 52).
  unfold binary_round_aux.
  assert (Hd52 : Zpos (digits2_pos (Pos.iter xO m 52)) = (Zpos (digits2_pos m) + 52)%Z)
    by (cbn [Pos.iter digits2_pos]; lia).
  assert (Hd1 : Zpos (digits2_pos m~0) = (Zpos (digits2_pos m) + 1)%Z)
    by (cbn [digits2_pos]; lia).
  destruct Hd as [[Hd Hemin]|[Hd ->]].
  - rewrite (shr_fexp_exact (Pos.iter xO m 52) _ 52)
      by (rewrite Hd52; fexp_lia).
    cbn [shr SpecFloat.iter_pos Pos.iter shr_1 orb shr_m loc_of_shr_record round_nearest_even].
    rewrite (shr_fexp_exact m _ 0)
      by fexp_lia.
    rewrite Hd. replace (-51 + e + 52)%Z with (e + 1)%Z by lia. reflexivity.
  - rewrite (shr_fexp_exact (Pos.iter xO m 52) _ 51)
      by (rewrite Hd52; fexp_lia).
    cbn [shr SpecFloat.iter_pos Pos.iter shr_1 orb shr_m loc_of_shr_record round_nearest_even].
    rewrite (shr_fexp_exact (xO m) _ 0)
      by (rewrite Hd1; fexp_lia).
    apply Z.ltb_lt in Hd. rewrite Hd. reflexivity.
Qed.

Lemma twice_not_zero s m e : Float64.is_zero (twice s m e) = false.
Proof. unfold twice. repeat case_match; reflexivity. Qed.

(** On a page whose lower edge is at 0, two croppings by [h] raise it to
    [0 + 2 * h] exactly. *)
Lemma origin_twice (b h : float) :
  Float64.is_zero b = true ->
  Float64.valid h = true ->
  Float64.add (Float64.add b h) h = Float64.add b (Float64.mul (Float64.of_Z 2) h).
Proof.
  destruct b as [sb| | |]; try discriminate; intros _.
  destruct h as [sh|sh| |sh mh eh]; intros Hv.
  - destruct sb, sh; reflexivity.
  - destruct sb, sh; reflexivity.
  - reflexivity.
  - change (Float64.add (S754_zero sb) (S754_finite sh mh eh)) with (S754_finite sh mh eh).
    rewrite (add_self_finite _ _ _ Hv), (mul_two_finite _ _ _ Hv).
    pose proof (twice_not_zero sh mh eh) as Hz.
    destruct (twice sh mh eh); try discriminate; reflexivity.
Qed.

Lemma twice_not_once s m e : twice s m e <> S754_finite s m e.
Proof. unfold twice. repeat case_match; intros [= ?]; lia. Qed.

(** ** Cropping twice *)

Lemma remove_footer_twice_ok input middle output h w doc :
  files w !! input = Some (PdfFile doc) ->
  forallb has_box doc = true ->
  unwritable w !! middle = None ->
  unwritable w !! output = None ->
  write_error w = None ->
  exists w',
    remove_footer_twice input middle output h w = (w', Return true) /\
    files w' !! output = Some (PdfFile (map (cropped_page h) (map (cropped_page h) doc))).
Proof.
  intros Hf Hall Hmid Hout Hwrite. unfold remove_footer_twice, bind.
  rewrite (remove_footer_ok _ _ _ _ doc Hf Hall Hmid Hwrite).
  erewrite (remove_footer_ok middle output h _ (map (cropped_page h) doc)).
  - eexists. split; [reflexivity|]. simpl. apply lookup_insert_eq.
  - simpl. apply lookup_insert_eq.
  - apply cropped_page_has_box, Hall.
  - exact Hout.
  - exact Hwrite.
Qed.

(** C3, as stated, fails: a page whose lower edge is at 72 cropped twice
    by 0.1 ends at 72.19999999999999, while 72 + 2 * 0.1 is 72.2: each of the
    two additions rounds. *)
Lemma twice_is_not_plus_2h :
  let run := remove_footer_twice "input.pdf" "middle.pdf" "output.pdf" tenth
               (world_of [raised_letter]) in
  float_of_str "0.1" = Some tenth /\
  snd run = Return true /\
  map lower_left_y (pages_at "output.pdf" (fst run))
    = [Some (S754_finite false 5080623329627340 (-46))] /\
  Float64.add (Float64.of_Z 72) (Float64.mul (Float64.of_Z 2) tenth)
    = S754_finite false 5080623329627341 (-46) /\
  map lower_left_y (pages_at "output.pdf" (fst run))
    <> [Some (Float64.add (Float64.of_Z 72) (Float64.mul (Float64.of_Z 2) tenth))].
Proof.
  vm_compute. repeat split. intros H. discriminate H.
Qed.

(** C3, amended. Cropping is not idempotent: two successful runs with the
    same footer height [h] leave every page with lower-left y
    [(y + h) + h], both additions rounded to the nearest float, and the
    other three coordinates as they were. On a page whose lower-left y is 0
    this is exactly [0 + 2 * h], and for a finite [h] it differs from what
    one run gives. *)
Theorem cropping_twice (w : World) (input middle output : string) (h : float)
    (doc : list PageObject) :
  files w !! input = Some (PdfFile doc) ->
  forallb has_box doc = true ->
  unwritable w !! middle = None ->
  unwritable w !! output = None ->
  write_error w = None ->
  exists w' out,
    remove_footer_twice input middle output h w = (w', Return true) /\
    files w' !! output = Some (PdfFile out) /\
    forall i page r,
      doc !! i = Some page -> mediabox page = Box r ->
      exists page' r',
        out !! i = Some page' /\ mediabox page' = Box r' /\
        bottom r' = Float64.add (Float64.add (bottom r) h) h /\
        left r' = left r /\ right r' = right r /\ top r' = top r /\
        (Float64.is_zero (bottom r) = true -> Float64.valid h = true ->
         bottom r' = Float64.add (bottom r) (Float64.mul (Float64.of_Z 2) h) /\
         (is_finite_nonzero h = true -> bottom r' <> bottom (cropped h r))).
Proof.
  intros Hf Hall Hmid Hout Hwrite.
  destruct (remove_footer_twice_ok input middle output h w doc Hf Hall Hmid Hout Hwrite)
    as (w' & Hrun & Hfile).
  exists w', (map (cropped_page h) (map (cropped_page h) doc)).
  split; [exact Hrun|]. split; [exact Hfile|].
  intros i page r Hi Hbox.
  exists (set_mediabox (set_mediabox page (cropped h r)) (cropped h (cropped h r))),
         (cropped h (cropped h r)).
  split.
  { apply (cropped_page_lookup h _ i (set_mediabox page (cropped h r)) (cropped h r));
      [apply cropped_page_lookup; assumption|reflexivity]. }
  do 5 (split; [reflexivity|]).
  intros Hzero Hvalid. split; [apply origin_twice; assumption|].
  intros Hfin. simpl. destruct (bottom r) as [sb| | |]; try discriminate.
  destruct h as [| | |sh mh eh]; try discriminate.
  change (Float64.add (S754_zero sb) (S754_finite sh mh eh)) with (S754_finite sh mh eh).
  rewrite (add_self_finite _ _ _ Hvalid). apply twice_not_once.
Qed.

Lemma cropping_twice_witness :
  exists w' out,
    remove_footer_twice "input.pdf" "middle.pdf" "output.pdf" (Float64.of_Z 50)
      (world_of [letter]) = (w', Return true) /\
    files w' !! "output.pdf" = Some (PdfFile out) /\
    forall i page r,
      [letter] !! i = Some page -> mediabox page = Box r ->
      exists page' r',
        out !! i = Some page' /\ mediabox page' = Box r' /\
        bottom r' = Float64.add (Float64.add (bottom r) (Float64.of_Z 50)) (Float64.of_Z 50) /\
        left r' = left r /\ right r' = right r /\ top r' = top r /\
        (Float64.is_zero (bottom r) = true -> Float64.valid (Float64.of_Z 50) = true ->
         bottom r' = Float64.add (bottom r) (Float64.mul (Float64.of_Z 2) (Float64.of_Z 50)) /\
         (is_finite_nonzero (Float64.of_Z 50) = true ->
          bottom r' <> bottom (cropped (Float64.of_Z 50) r))).
Proof.
  apply (cropping_twice (world_of [letter]) "input.pdf" "middle.pdf" "output.pdf"
           (Float64.of_Z 50) [letter]); reflexivity.
Defined.

(** ** Rounding is monotone

    Addition and subtraction of finite floats return the exact result
    rounded to the nearest float, and rounding keeps the order: what is
    needed to compare [y + h] with [y] and with the upper edge. *)

Section Rounding.
Local Open Scope Z_scope.

Lemma shr_1_represents n k rec :
  0 <= n -> 0 <= k -> shr_represents n k rec -> shr_represents n (k + 1) (shr_1 rec).
Proof.
  intros Hn Hk [Hm Hloc].
  assert (Hpow : 0 < 2 ^ k) by (apply Z.pow_pos_nonneg; lia).
  assert (Hpow1 : 2 ^ (k + 1) = 2 * 2 ^ k) by (rewrite Z.pow_add_r by lia; lia).
  pose proof (Z.div_mod n (2 ^ k) ltac:(lia)) as Hdm.
  pose proof (Z.mod_pos_bound n (2 ^ k) Hpow) as Hrho.
  pose proof (Z.div_pos n (2 ^ k) Hn Hpow) as Hq.
  set (q := n / 2 ^ k) in *. set (rho := n mod 2 ^ k) in *.
  pose proof (Z.div_mod q 2 ltac:(lia)) as Hq2.
  pose proof (Z.mod_pos_bound q 2 ltac:(lia)) as Hb.
  assert (Hdiv : n / 2 ^ (k + 1) = q / 2).
  { symmetry. apply (Z.div_unique_pos n _ (q / 2) (rho + (q mod 2) * 2 ^ k)); nia. }
  assert (Hmod : n mod 2 ^ (k + 1) = rho + (q mod 2) * 2 ^ k).
  { symmetry. apply (Z.mod_unique_pos n _ (q / 2)); nia. }
  unfold shr_represents. rewrite Hdiv, Hmod.
  destruct rec as [m r s]. simpl in Hm, Hloc. subst m.
  assert (Hrs : orb r s = negb (rho =? 0)).
  { unfold location_of in Hloc. destruct (Z.eqb_spec rho 0), r, s; simpl in *; congruence. }
  unfold shr_1. rewrite Hrs.
  destruct q as [|[p|p|]|p]; try lia; cbn [shr_m loc_of_shr_record].
  all: unfold location_of.
  all: try replace (Z.pos p~1 / 2) with (Z.pos p) in * by lia.
  all: try replace (Z.pos p~0 / 2) with (Z.pos p) in * by lia.
  all: try replace (Z.pos p~1 mod 2) with 1 in * by lia.
  all: try replace (Z.pos p~0 mod 2) with 0 in * by lia.
  all: change (0 / 2) with 0; change (0 mod 2) with 0; change (1 / 2) with 0; change (1 mod 2) with 1.
  all: split; [reflexivity|].
  all: destruct (Z.eqb_spec rho 0); simpl.
  all: repeat match goal with
       | |- context [?a =? ?b] => destruct (Z.eqb_spec a b); try lia
       | |- context [?a ?= ?b] => destruct (Z.compare_spec a b); try lia
       end; try reflexivity.
Qed.

Lemma iter_pos_represents p : forall n k rec,
  0 <= n -> 0 <= k -> shr_represents n k rec ->
  shr_represents n (k + Zpos p) (SpecFloat.iter_pos shr_1 p rec).
Proof.
  induction p as [p IH|p IH|]; intros n k rec Hn Hk Hrep; cbn [SpecFloat.iter_pos].
  - replace (k + Z.pos p~1) with (k + 1 + Z.pos p + Z.pos p) by lia.
    apply IH; [lia..|]. apply IH; [lia..|]. apply shr_1_represents; assumption.
  - replace (k + Z.pos p~0) with (k + Z.pos p + Z.pos p) by lia.
    apply IH; [lia..|]. apply IH; assumption.
  - apply shr_1_represents; assumption.
Qed.

Lemma shr_represents_start n : shr_represents n 0 {| shr_m := n; shr_r := false; shr_s := false |}.
Proof.
  unfold shr_represents. cbn [shr_m loc_of_shr_record].
  change (2 ^ 0) with 1. rewrite Z.div_1_r, Z.mod_1_r. split; reflexivity.
Qed.

Lemma rne_bounds n k : n / 2 ^ k <= rne n k <= n / 2 ^ k + 1.
Proof.
  unfold rne, round_nearest_even, location_of.
  destruct (n mod 2 ^ k =? 0); [lia|].
  destruct (2 * (n mod 2 ^ k) ?= 2 ^ k); try lia.
  destruct (Z.even (n / 2 ^ k)); lia.
Qed.

Lemma rne_exact n k : n mod 2 ^ k = 0 -> rne n k = n / 2 ^ k.
Proof. intros H. unfold rne, location_of. rewrite H. reflexivity. Qed.

Lemma rne_mono n1 n2 k : 0 <= k -> n1 <= n2 -> rne n1 k <= rne n2 k.
Proof.
  intros Hk Hle.
  assert (Hpow : 0 < 2 ^ k) by (apply Z.pow_pos_nonneg; lia).
  pose proof (Z.div_le_mono n1 n2 (2 ^ k) Hpow Hle) as Hq.
  destruct (Z.eq_dec (n1 / 2 ^ k) (n2 / 2 ^ k)) as [Heq|Hne].
  - pose proof (Z.div_mod n1 (2 ^ k) ltac:(lia)) as H1.
    pose proof (Z.div_mod n2 (2 ^ k) ltac:(lia)) as H2.
    pose proof (Z.mod_pos_bound n1 (2 ^ k) Hpow) as B1.
    pose proof (Z.mod_pos_bound n2 (2 ^ k) Hpow) as B2.
    assert (Hrho : n1 mod 2 ^ k <= n2 mod 2 ^ k) by nia.
    unfold rne, round_nearest_even, location_of. rewrite Heq.
    destruct (Z.eqb_spec (n1 mod 2 ^ k) 0), (Z.eqb_spec (n2 mod 2 ^ k) 0); try lia;
      repeat match goal with
      | |- context [?a ?= ?b] => destruct (Z.compare_spec a b); try lia
      end;
      destruct (Z.even (n2 / 2 ^ k)); lia.
  - pose proof (rne_bounds n1 k). pose proof (rne_bounds n2 k). lia.
Qed.

Lemma rne_shift n k j : 0 <= k -> 0 <= j -> rne (n * 2 ^ j) (k + j) = rne n k.
Proof.
  intros Hk Hj.
  assert (Hpk : 0 < 2 ^ k) by (apply Z.pow_pos_nonneg; lia).
  assert (Hpj : 0 < 2 ^ j) by (apply Z.pow_pos_nonneg; lia).
  assert (Hpow : 2 ^ (k + j) = 2 ^ k * 2 ^ j) by (apply Z.pow_add_r; lia).
  pose proof (Z.div_mod n (2 ^ k) ltac:(lia)) as Hdm.
  pose proof (Z.mod_pos_bound n (2 ^ k) Hpk) as Hrho.
  assert (Hdiv : n * 2 ^ j / 2 ^ (k + j) = n / 2 ^ k).
  { symmetry. apply (Z.div_unique_pos _ _ _ ((n mod 2 ^ k) * 2 ^ j)); nia. }
  assert (Hmod : (n * 2 ^ j) mod 2 ^ (k + j) = (n mod 2 ^ k) * 2 ^ j).
  { symmetry. apply (Z.mod_unique_pos _ _ (n / 2 ^ k)); nia. }
  unfold rne, location_of. rewrite Hdiv, Hmod, Hpow.
  set (rho := n mod 2 ^ k) in *.
  destruct (Z.eqb_spec (rho * 2 ^ j) 0), (Z.eqb_spec rho 0); try reflexivity; try nia.
  f_equal. f_equal.
  destruct (Z.compare_spec (2 * (rho * 2 ^ j)) (2 ^ k * 2 ^ j)),
           (Z.compare_spec (2 * rho) (2 ^ k)); try reflexivity; nia.
Qed.

Lemma digits_bounds p :
  2 ^ (Zpos (digits2_pos p) - 1) <= Zpos p < 2 ^ Zpos (digits2_pos p).
Proof.
  induction p as [p IH|p IH|]; cbn [digits2_pos].
  - rewrite Pos2Z.inj_succ. replace (Z.succ (Z.pos (digits2_pos p)) - 1) with
      (Z.succ (Z.pos (digits2_pos p) - 1)) by lia.
    rewrite !Z.pow_succ_r by lia. lia.
  - rewrite Pos2Z.inj_succ. replace (Z.succ (Z.pos (digits2_pos p)) - 1) with
      (Z.succ (Z.pos (digits2_pos p) - 1)) by lia.
    rewrite !Z.pow_succ_r by lia. lia.
  - change (2 ^ (1 - 1) <= 1 < 2 ^ 1). lia.
Qed.

Lemma digits_unique p k : 2 ^ (k - 1) <= Zpos p < 2 ^ k -> Zpos (digits2_pos p) = k.
Proof.
  intros [Hlo Hhi]. pose proof (digits_bounds p) as [Dlo Dhi].
  destruct (Z.lt_trichotomy (Zpos (digits2_pos p)) k) as [Hlt|[Heq|Hgt]]; [|exact Heq|].
  - pose proof (Z.pow_le_mono_r 2 (Zpos (digits2_pos p)) (k - 1) ltac:(lia) ltac:(lia)). lia.
  - assert (0 <= k).
    { destruct (Z.le_gt_cases 0 k); [assumption|].
      rewrite (Z.pow_neg_r 2 k) in Hhi by lia. lia. }
    pose proof (Z.pow_le_mono_r 2 k (Zpos (digits2_pos p) - 1) ltac:(lia) ltac:(lia)). lia.
Qed.

Lemma digits_shift p j q :
  0 <= j -> Zpos q = Zpos p * 2 ^ j -> Zpos (digits2_pos q) = Zpos (digits2_pos p) + j.
Proof.
  intros Hj Hq. apply digits_unique. rewrite Hq.
  pose proof (digits_bounds p) as [Dlo Dhi].
  assert (Hpj : 0 < 2 ^ j) by (apply Z.pow_pos_nonneg; lia).
  replace (Zpos (digits2_pos p) + j - 1) with ((Zpos (digits2_pos p) - 1) + j) by lia.
  rewrite !Z.pow_add_r by lia. nia.
Qed.

Lemma iter_xO p n : Zpos (Pos.iter xO p n) = Zpos p * 2 ^ Zpos n.
Proof.
  induction n as [|n IH] using Pos.peano_ind.
  - cbn [Pos.iter]. lia.
  - rewrite Pos.iter_succ, Pos2Z.inj_succ, Z.pow_succ_r by lia.
    rewrite Pos2Z.inj_xO, IH. lia.
Qed.

Lemma round_aux_fits s M e :
  fexp Float64.prec Float64.emax (Zpos (digits2_pos M) + e) - e <= 0 ->
  binary_round_aux Float64.prec Float64.emax s (Zpos M) e loc_Exact = finite_or_inf s M e.
Proof.
  intros Hfit. unfold binary_round_aux, shr_fexp. cbn [Zdigits2 shr_record_of_loc].
  assert (Hshr : forall rec, shr rec e
            (fexp Float64.prec Float64.emax (Zpos (digits2_pos M) + e) - e) = (rec, e)).
  { intros rec. unfold shr.
    destruct (fexp Float64.prec Float64.emax (Zpos (digits2_pos M) + e) - e); try reflexivity; lia. }
  rewrite Hshr. cbn [shr_m loc_of_shr_record round_nearest_even Zdigits2 shr_record_of_loc].
  rewrite Hshr. reflexivity.
Qed.

Lemma rne_normal M d :
  d = Zpos (digits2_pos M) - 53 -> 0 < d ->
  2 ^ 52 <= rne (Zpos M) d <= 2 ^ 53.
Proof.
  intros Hd Hpos. pose proof (digits_bounds M) as [Dlo Dhi].
  pose proof (rne_bounds (Zpos M) d) as Hb.
  assert (Hpd : 0 < 2 ^ d) by (apply Z.pow_pos_nonneg; lia).
  replace (Zpos (digits2_pos M) - 1) with (52 + d) in Dlo by lia.
  replace (Zpos (digits2_pos M)) with (53 + d) in Dhi by lia.
  rewrite Z.pow_add_r in Dlo, Dhi by lia.
  assert (2 ^ 52 <= Zpos M / 2 ^ d) by (apply Z.div_le_lower_bound; lia).
  assert (Zpos M / 2 ^ d < 2 ^ 53) by (apply Z.div_lt_upper_bound; lia).
  lia.
Qed.

Lemma round_aux_shifts s M e d :
  -1074 <= e -> d = Zpos (digits2_pos M) - 53 -> 0 < d ->
  binary_round_aux Float64.prec Float64.emax s (Zpos M) e loc_Exact =
  if rne (Zpos M) d =? 2 ^ 53 then finite_or_inf s (2 ^ 52) (e + d + 1)
  else finite_or_inf s (Z.to_pos (rne (Zpos M) d)) (e + d).
Proof.
  intros He Hd Hpos. pose proof (rne_normal M d Hd Hpos) as Hm1.
  unfold binary_round_aux, shr_fexp at 1. cbn [Zdigits2 shr_record_of_loc].
  replace (fexp Float64.prec Float64.emax (Zpos (digits2_pos M) + e) - e) with d by fexp_lia.
  destruct d as [|pd|pd]; try lia. cbn [shr].
  destruct (iter_pos_represents pd (Zpos M) 0 _ ltac:(lia) ltac:(lia)
              (shr_represents_start (Zpos M))) as [Hm Hloc].
  rewrite Hm, Hloc. change (0 + Z.pos pd) with (Z.pos pd).
  fold (rne (Zpos M) (Z.pos pd)).
  destruct (Z.eqb_spec (rne (Zpos M) (Z.pos pd)) (2 ^ 53)) as [Heq|Hne].
  - rewrite Heq. change (2 ^ 53) with 9007199254740992.
    unfold shr_fexp. cbn [Zdigits2 shr_record_of_loc].
    change (Z.pos (digits2_pos 9007199254740992)) with 54.
    replace (fexp Float64.prec Float64.emax (54 + (e + Z.pos pd)) - (e + Z.pos pd)) with 1
      by fexp_lia.
    reflexivity.
  - destruct (rne (Zpos M) (Z.pos pd)) as [|m1|m1] eqn:Em1; try lia.
    assert (Hdig : Zpos (digits2_pos m1) = 53) by (apply digits_unique; lia).
    unfold shr_fexp. cbn [Zdigits2 shr_record_of_loc]. rewrite Hdig.
    replace (fexp Float64.prec Float64.emax (53 + (e + Z.pos pd)) - (e + Z.pos pd)) with 0
      by fexp_lia.
    reflexivity.
Qed.

Lemma pow_split a b : 0 <= a -> 0 <= b -> 2 ^ (a + b) = 2 ^ a * 2 ^ b.
Proof. intros. apply Z.pow_add_r; assumption. Qed.

Lemma finite_or_inf_units s m e :
  fexp Float64.prec Float64.emax (Zpos (digits2_pos m) + e) = e ->
  is_number (finite_or_inf s m e) = true /\
  units (finite_or_inf s m e) = cond_Zopp s (Z.min (Zpos m * 2 ^ (e + 1074)) huge).
Proof.
  intros Hcan. pose proof (digits_bounds m) as [Dlo Dhi].
  assert (He : -1074 <= e) by (revert Hcan; fexp_lia).
  assert (HD : Zpos (digits2_pos m) <= 53) by (revert Hcan; fexp_lia).
  assert (Hpe : 0 < 2 ^ (e + 1074)) by (apply Z.pow_pos_nonneg; lia).
  unfold finite_or_inf, huge. destruct (Z.leb_spec e 971) as [Hle|Hgt].
  - split.
    + cbn [is_number]. unfold Float64.valid, valid_binary, bounded, canonical_mantissa.
      rewrite Hcan, Z.eqb_refl. apply Z.leb_le. exact Hle.
    + cbn [units]. f_equal. symmetry. apply Z.min_l.
      pose proof (Z.pow_le_mono_r 2 (Zpos (digits2_pos m)) 53 ltac:(lia) HD).
      pose proof (Z.pow_le_mono_r 2 (e + 1074) 2045 ltac:(lia) ltac:(lia)).
      replace 2098 with (53 + 2045) by lia. rewrite (pow_split 53 2045) by lia.
      assert (0 < 2 ^ 53) by lia. nia.
  - split; [reflexivity|]. cbn [units]. f_equal. symmetry. apply Z.min_r.
    assert (Zpos (digits2_pos m) = 53) by (revert Hcan; fexp_lia).
    replace (Zpos (digits2_pos m) - 1) with 52 in Dlo by lia.
    pose proof (Z.pow_le_mono_r 2 2046 (e + 1074) ltac:(lia) ltac:(lia)).
    unfold huge. replace 2098 with (52 + 2046) by lia. rewrite (pow_split 52 2046) by lia.
    assert (0 < 2 ^ 2046) by (apply Z.pow_pos_nonneg; lia). nia.
Qed.

Lemma Zdigits2_shift (m : positive) d :
  0 <= d -> Zdigits2 (Zpos m * 2 ^ d) = Zpos (digits2_pos m) + d.
Proof.
  intros Hd. assert (Hpd : 0 < 2 ^ d) by (apply Z.pow_pos_nonneg; lia).
  destruct (Zpos m * 2 ^ d) as [|q|q] eqn:HN; try lia.
  cbn [Zdigits2]. apply (digits_shift m d q Hd). lia.
Qed.

Lemma round53_exact (m : positive) d :
  0 <= d -> Zpos (digits2_pos m) <= 53 -> (d = 0 \/ Zpos (digits2_pos m) = 53) ->
  round53 (Zpos m * 2 ^ d) = Zpos m * 2 ^ d.
Proof.
  intros Hd HD Hcase.
  assert (Hpd : 0 < 2 ^ d) by (apply Z.pow_pos_nonneg; lia).
  unfold round53. rewrite Zdigits2_shift by exact Hd.
  destruct Hcase as [->|HD53].
  - replace (Z.max 0 (Zpos (digits2_pos m) + 0 - 53)) with 0 by lia.
    rewrite rne_exact by apply Z.mod_1_r.
    change (2 ^ 0) with 1. rewrite Z.div_1_r. lia.
  - replace (Z.max 0 (Zpos (digits2_pos m) + d - 53)) with d by lia.
    rewrite rne_exact by apply Z.mod_mul, Z.neq_sym, Z.lt_neq, Hpd.
    rewrite Z.div_mul by lia. reflexivity.
Qed.

Lemma binary_round_val s M e :
  -1074 <= e ->
  exists m' e',
    binary_round Float64.prec Float64.emax s M e = finite_or_inf s m' e' /\
    fexp Float64.prec Float64.emax (Zpos (digits2_pos m') + e') = e' /\
    Zpos m' * 2 ^ (e' + 1074) = round53 (Zpos M * 2 ^ (e + 1074)).
Proof.
  intros He. unfold binary_round.
  destruct (Z.le_gt_cases (Zpos (digits2_pos M)) 53) as [HD|HD].
  - (* the mantissa fits: at most a left shift *)
    set (t := fexp Float64.prec Float64.emax (Zpos (digits2_pos M) + e)).
    assert (Ht : t <= e /\ -1074 <= t /\ Zpos (digits2_pos M) + e - 53 <= t /\
                 (t = -1074 \/ t = Zpos (digits2_pos M) + e - 53))
      by (unfold t; fexp_lia).
    unfold shl_align. destruct (t - e) as [|pd|pd] eqn:Hte; try lia.
    + exists M, e. assert (t = e) as Hteq by lia.
      split; [apply round_aux_fits; fold t; lia|]. split; [fold t; exact Hteq|].
      symmetry. apply round53_exact; lia.
    + exists (Pos.iter xO M pd), t.
      pose proof (iter_xO M pd) as HM'.
      pose proof (digits_shift M (Zpos pd) _ ltac:(lia) HM') as Hdig.
      assert (Hcan : fexp Float64.prec Float64.emax
                       (Zpos (digits2_pos (Pos.iter xO M pd)) + t) = t).
      { rewrite Hdig. replace (Zpos (digits2_pos M) + Zpos pd + t)
          with (Zpos (digits2_pos M) + e) by lia. reflexivity. }
      split; [apply round_aux_fits; lia|]. split; [exact Hcan|].
      replace (Zpos M * 2 ^ (e + 1074)) with (Zpos (Pos.iter xO M pd) * 2 ^ (t + 1074)).
      2:{ rewrite HM'. replace (e + 1074) with (Zpos pd + (t + 1074)) by lia.
          rewrite (pow_split (Zpos pd)) by lia. lia. }
      symmetry. apply round53_exact; lia.
  - (* the mantissa is rounded to 53 bits *)
    set (d := Zpos (digits2_pos M) - 53).
    assert (Ht : fexp Float64.prec Float64.emax (Zpos (digits2_pos M) + e) - e = d)
      by (unfold d; fexp_lia).
    unfold shl_align. rewrite Ht. destruct d as [|pd|pd] eqn:Hd; try lia.
    rewrite (round_aux_shifts s M e (Zpos pd)) by lia.
    pose proof (rne_normal M (Zpos pd) ltac:(lia) ltac:(lia)) as Hm1.
    assert (Hval : round53 (Zpos M * 2 ^ (e + 1074)) =
                   rne (Zpos M) (Zpos pd) * 2 ^ (Zpos pd + (e + 1074))).
    { unfold round53. rewrite Zdigits2_shift by lia.
      replace (Z.max 0 (Zpos (digits2_pos M) + (e + 1074) - 53))
        with (Zpos pd + (e + 1074)) by lia.
      rewrite rne_shift by lia. reflexivity. }
    rewrite Hval.
    destruct (Z.eqb_spec (rne (Zpos M) (Zpos pd)) (2 ^ 53)) as [Heq|Hne].
    + exists (2 ^ 52)%positive, (e + Zpos pd + 1).
      split; [reflexivity|]. split.
      * change (Zpos (digits2_pos (2 ^ 52))) with 53. fexp_lia.
      * rewrite Heq. replace (e + Zpos pd + 1 + 1074) with (1 + (Zpos pd + (e + 1074))) by lia.
        rewrite (pow_split 1) by lia. change (Zpos (2 ^ 52)) with (2 ^ 52).
        change (2 ^ 53) with (2 ^ 52 * 2 ^ 1). lia.
    + exists (Z.to_pos (rne (Zpos M) (Zpos pd))), (e + Zpos pd).
      assert (Hid : Zpos (Z.to_pos (rne (Zpos M) (Zpos pd))) = rne (Zpos M) (Zpos pd))
        by (apply Z2Pos.id; lia).
      assert (Hdig1 : Zpos (digits2_pos (Z.to_pos (rne (Zpos M) (Zpos pd)))) = 53)
        by (apply digits_unique; rewrite Hid; lia).
      split; [reflexivity|]. split.
      * rewrite Hdig1. fexp_lia.
      * rewrite Hid. f_equal. f_equal. lia.
Qed.

Lemma digits_mono p1 p2 :
  Zpos p1 <= Zpos p2 -> Zpos (digits2_pos p1) <= Zpos (digits2_pos p2).
Proof.
  intros Hle. pose proof (digits_bounds p1) as [L1 _]. pose proof (digits_bounds p2) as [_ H2].
  assert (Hlt : 2 ^ (Zpos (digits2_pos p1) - 1) < 2 ^ Zpos (digits2_pos p2)) by lia.
  apply Z.pow_lt_mono_r_iff in Hlt; lia.
Qed.

Lemma round53_mono N1 N2 : 0 < N1 -> N1 <= N2 -> round53 N1 <= round53 N2.
Proof.
  intros Hpos Hle.
  destruct N1 as [|p1|p1]; try lia. destruct N2 as [|p2|p2]; try lia.
  pose proof (digits_mono p1 p2 Hle) as HD.
  pose proof (digits_bounds p1) as [L1 H1]. pose proof (digits_bounds p2) as [L2 H2].
  unfold round53. cbn [Zdigits2].
  set (d1 := Z.max 0 (Zpos (digits2_pos p1) - 53)).
  set (d2 := Z.max 0 (Zpos (digits2_pos p2) - 53)).
  assert (Hd1 : 0 <= d1) by lia. assert (Hd2 : 0 <= d2) by lia.
  assert (Hp1 : 0 < 2 ^ d1) by (apply Z.pow_pos_nonneg; lia).
  assert (Hp2 : 0 < 2 ^ d2) by (apply Z.pow_pos_nonneg; lia).
  destruct (Z.eq_dec d1 d2) as [Heq|Hne].
  - rewrite <- Heq. apply Z.mul_le_mono_nonneg_r; [lia|]. apply rne_mono; assumption.
  - assert (Hlt : d1 + 1 <= d2) by lia.
    (* the smaller one stays below 2^(53+d1), the larger one is above 2^(52+d2) *)
    assert (Hup : rne (Zpos p1) d1 <= 2 ^ 53).
    { pose proof (rne_bounds (Zpos p1) d1).
      assert (Zpos p1 / 2 ^ d1 < 2 ^ 53); [|lia].
      apply Z.div_lt_upper_bound; [lia|].
      rewrite <- pow_split by lia.
      pose proof (Z.pow_le_mono_r 2 (Zpos (digits2_pos p1)) (d1 + 53) ltac:(lia) ltac:(lia)).
      lia. }
    assert (Hlo : 2 ^ 52 <= rne (Zpos p2) d2).
    { pose proof (rne_bounds (Zpos p2) d2).
      assert (2 ^ 52 <= Zpos p2 / 2 ^ d2); [|lia].
      apply Z.div_le_lower_bound; [lia|].
      rewrite <- pow_split by lia.
      replace (d2 + 52) with (Zpos (digits2_pos p2) - 1) by lia. lia. }
    pose proof (Z.pow_le_mono_r 2 (d1 + 1) d2 ltac:(lia) Hlt) as Hpow.
    rewrite (pow_split d1 1) in Hpow by lia. change (2 ^ 1) with 2 in Hpow.
    change (2 ^ 53) with (2 ^ 52 * 2) in Hup.
    assert (0 < 2 ^ 52) by lia.
    nia.
Qed.

Lemma round53_nonneg N : 0 <= N -> 0 <= round53 N.
Proof.
  intros HN. unfold round53.
  set (d := Z.max 0 (Zdigits2 N - 53)).
  assert (Hp : 0 < 2 ^ d) by (apply Z.pow_pos_nonneg; lia).
  pose proof (rne_bounds N d). pose proof (Z.div_pos N (2 ^ d) HN Hp). nia.
Qed.

Lemma huge_pos : 0 < huge.
Proof. unfold huge. apply Z.pow_pos_nonneg; lia. Qed.

Lemma rounded_mono N1 N2 : N1 <= N2 -> rounded N1 <= rounded N2.
Proof.
  intros Hle. pose proof huge_pos.
  destruct N1 as [|p1|p1], N2 as [|p2|p2]; try lia; cbn [rounded].
  - pose proof (round53_nonneg (Zpos p2) ltac:(lia)). lia.
  - pose proof (round53_mono (Zpos p1) (Zpos p2) ltac:(lia) Hle). lia.
  - pose proof (round53_nonneg (Zpos p1) ltac:(lia)). lia.
  - pose proof (round53_nonneg (Zpos p1) ltac:(lia)).
    pose proof (round53_nonneg (Zpos p2) ltac:(lia)). lia.
  - pose proof (round53_mono (Zpos p2) (Zpos p1) ltac:(lia) ltac:(lia)). lia.
Qed.

Lemma is_real_number x : is_real x = true -> is_number x = true.
Proof. destruct x; simpl; try discriminate; auto. Qed.

Lemma bounded_facts m e :
  bounded Float64.prec Float64.emax m e = true ->
  fexp Float64.prec Float64.emax (Zpos (digits2_pos m) + e) = e /\ e <= 971.
Proof.
  unfold bounded, canonical_mantissa.
  intros [Hc He]%andb_true_iff. apply Z.eqb_eq in Hc. apply Z.leb_le in He.
  split; [exact Hc|exact He].
Qed.

Lemma finite_units m e :
  bounded Float64.prec Float64.emax m e = true ->
  round53 (Zpos m * 2 ^ (e + 1074)) = Zpos m * 2 ^ (e + 1074) /\
  0 < Zpos m * 2 ^ (e + 1074) < huge.
Proof.
  intros Hb. destruct (bounded_facts m e Hb) as [Hcan He].
  assert (-1074 <= e) by (revert Hcan; fexp_lia).
  assert (Zpos (digits2_pos m) <= 53) by (revert Hcan; fexp_lia).
  split.
  - apply round53_exact; [lia|assumption|]. revert Hcan. fexp_lia.
  - pose proof (digits_bounds m) as [_ Dhi].
    assert (0 < 2 ^ (e + 1074)) by (apply Z.pow_pos_nonneg; lia).
    pose proof (Z.pow_le_mono_r 2 (Zpos (digits2_pos m)) 53 ltac:(lia) ltac:(lia)).
    pose proof (Z.pow_le_mono_r 2 (e + 1074) 2045 ltac:(lia) ltac:(lia)).
    unfold huge. replace 2098 with (53 + 2045) by lia. rewrite (pow_split 53 2045) by lia.
    assert (0 < 2 ^ 53) by lia. nia.
Qed.

(** Rounding leaves a float as it is. *)
Lemma rounded_units x : is_real x = true -> rounded (units x) = units x.
Proof.
  destruct x as [s| | |s m e]; try discriminate; intros Hr; [reflexivity|].
  destruct (finite_units m e Hr) as [Hval Hlt]. cbn [units].
  destruct (Zpos m * 2 ^ (e + 1074)) as [|N|N] eqn:HN; try lia.
  destruct s; cbn [cond_Zopp]; [change (- Zpos N) with (Zneg N)|]; cbn [rounded];
    rewrite Hval; lia.
Qed.

Lemma normalize_units n e :
  -1074 <= e ->
  is_number (binary_normalize Float64.prec Float64.emax n e false) = true /\
  units (binary_normalize Float64.prec Float64.emax n e false) = rounded (n * 2 ^ (e + 1074)).
Proof.
  intros He. assert (Hp : 0 < 2 ^ (e + 1074)) by (apply Z.pow_pos_nonneg; lia).
  destruct n as [|p|p]; cbn [binary_normalize].
  - split; reflexivity.
  - destruct (binary_round_val false p e He) as (m' & e' & -> & Hcan & Hval).
    destruct (finite_or_inf_units false m' e' Hcan) as [Hprop Hext].
    split; [exact Hprop|]. rewrite Hext, Hval. cbn [cond_Zopp].
    destruct (Zpos p * 2 ^ (e + 1074)) eqn:HN; try lia. reflexivity.
  - destruct (binary_round_val true p e He) as (m' & e' & -> & Hcan & Hval).
    destruct (finite_or_inf_units true m' e' Hcan) as [Hprop Hext].
    split; [exact Hprop|]. rewrite Hext, Hval. cbn [cond_Zopp].
    replace (Zneg p * 2 ^ (e + 1074)) with (- (Zpos p * 2 ^ (e + 1074))) by lia.
    destruct (Zpos p * 2 ^ (e + 1074)) eqn:HN; try lia. reflexivity.
Qed.

Lemma shl_align_fst m e e' :
  e' <= e -> Zpos (fst (shl_align m e e')) = Zpos m * 2 ^ (e - e').
Proof.
  intros Hle. unfold shl_align. destruct (e' - e) as [|d|d] eqn:Hd; try lia; cbn [fst].
  - replace (e - e') with 0 by lia. lia.
  - rewrite iter_xO. replace (e - e') with (Zpos d) by lia. reflexivity.
Qed.

Lemma aligned_units s m e e' :
  -1074 <= e' -> e' <= e ->
  cond_Zopp s (Zpos (fst (shl_align m e e'))) * 2 ^ (e' + 1074) =
  cond_Zopp s (Zpos m * 2 ^ (e + 1074)).
Proof.
  intros He' Hle. rewrite shl_align_fst by exact Hle.
  replace (e + 1074) with ((e - e') + (e' + 1074)) by lia.
  rewrite (pow_split (e - e')) by lia. destruct s; cbn [cond_Zopp]; lia.
Qed.

(** Addition and subtraction of finite numbers: the exact result, rounded. *)
Lemma add_units x y :
  is_real x = true -> is_real y = true ->
  is_number (Float64.add x y) = true /\ units (Float64.add x y) = rounded (units x + units y).
Proof.
  intros Hx Hy.
  destruct x as [sx| | |sx mx ex], y as [sy| | |sy my ey]; try discriminate.
  - destruct sx, sy; split; reflexivity.
  - change (Float64.add (S754_zero sx) (S754_finite sy my ey)) with (S754_finite sy my ey).
    split; [apply is_real_number, Hy|]. rewrite Z.add_0_l. symmetry. apply rounded_units, Hy.
  - change (Float64.add (S754_finite sx mx ex) (S754_zero sy)) with (S754_finite sx mx ex).
    split; [apply is_real_number, Hx|].
    change (units (S754_zero sy)) with 0. rewrite Z.add_0_r. symmetry. apply rounded_units, Hx.
  - destruct (bounded_facts mx ex Hx) as [Hcx _], (bounded_facts my ey Hy) as [Hcy _].
    assert (-1074 <= ex) by (revert Hcx; fexp_lia).
    assert (-1074 <= ey) by (revert Hcy; fexp_lia).
    unfold Float64.add, SFadd.
    destruct (normalize_units
      (cond_Zopp sx (Zpos (fst (shl_align mx ex (Z.min ex ey)))) +
       cond_Zopp sy (Zpos (fst (shl_align my ey (Z.min ex ey))))) (Z.min ex ey) ltac:(lia))
      as [Hprop Hext].
    split; [exact Hprop|]. rewrite Hext. f_equal.
    rewrite Z.mul_add_distr_r, !aligned_units by lia. reflexivity.
Qed.

Lemma sub_units x y :
  is_real x = true -> is_real y = true ->
  is_number (Float64.sub x y) = true /\ units (Float64.sub x y) = rounded (units x - units y).
Proof.
  intros Hx Hy.
  destruct x as [sx| | |sx mx ex], y as [sy| | |sy my ey]; try discriminate.
  - destruct sx, sy; split; reflexivity.
  - change (Float64.sub (S754_zero sx) (S754_finite sy my ey))
      with (S754_finite (negb sy) my ey).
    split; [exact Hy|]. change (units (S754_zero sx)) with 0. rewrite Z.sub_0_l.
    replace (- units (S754_finite sy my ey)) with (units (S754_finite (negb sy) my ey))
      by (destruct sy; cbn [units cond_Zopp negb]; lia).
    symmetry. apply rounded_units, Hy.
  - change (Float64.sub (S754_finite sx mx ex) (S754_zero sy)) with (S754_finite sx mx ex).
    split; [apply is_real_number, Hx|].
    change (units (S754_zero sy)) with 0. rewrite Z.sub_0_r. symmetry. apply rounded_units, Hx.
  - destruct (bounded_facts mx ex Hx) as [Hcx _], (bounded_facts my ey Hy) as [Hcy _].
    assert (-1074 <= ex) by (revert Hcx; fexp_lia).
    assert (-1074 <= ey) by (revert Hcy; fexp_lia).
    unfold Float64.sub, SFsub.
    destruct (normalize_units
      (cond_Zopp sx (Zpos (fst (shl_align mx ex (Z.min ex ey)))) -
       cond_Zopp sy (Zpos (fst (shl_align my ey (Z.min ex ey))))) (Z.min ex ey) ltac:(lia))
      as [Hprop Hext].
    split; [exact Hprop|]. rewrite Hext. f_equal.
    rewrite Z.mul_sub_distr_r, !aligned_units by lia. reflexivity.
Qed.

Lemma canonical_lt m1 e1 m2 e2 :
  bounded Float64.prec Float64.emax m1 e1 = true ->
  bounded Float64.prec Float64.emax m2 e2 = true ->
  e1 < e2 ->
  Zpos m1 * 2 ^ (e1 + 1074) < Zpos m2 * 2 ^ (e2 + 1074).
Proof.
  intros H1 H2 Hlt.
  destruct (bounded_facts m1 e1 H1) as [Hc1 _], (bounded_facts m2 e2 H2) as [Hc2 _].
  pose proof (digits_bounds m1) as [_ Dhi]. pose proof (digits_bounds m2) as [Dlo _].
  assert (-1074 <= e1) by (revert Hc1; fexp_lia).
  assert (HD1 : Zpos (digits2_pos m1) <= 53) by (revert Hc1; fexp_lia).
  assert (HD2 : Zpos (digits2_pos m2) = 53) by (revert Hc2; fexp_lia).
  replace (Zpos (digits2_pos m2) - 1) with 52 in Dlo by lia.
  pose proof (Z.pow_le_mono_r 2 (Zpos (digits2_pos m1)) 53 ltac:(lia) HD1).
  assert (Ha : 0 < 2 ^ (e1 + 1074)) by (apply Z.pow_pos_nonneg; lia).
  replace (e2 + 1074) with ((e2 - e1) + (e1 + 1074)) by lia.
  rewrite (pow_split (e2 - e1)) by lia.
  pose proof (Z.pow_le_mono_r 2 1 (e2 - e1) ltac:(lia) ltac:(lia)) as Hb.
  change (2 ^ 1) with 2 in Hb. change (2 ^ 53) with (2 ^ 52 * 2) in *.
  assert (0 < 2 ^ 52) by (apply Z.pow_pos_nonneg; lia).
  rewrite Z.mul_assoc. apply Z.mul_lt_mono_pos_r; [exact Ha|]. nia.
Qed.

Lemma compare_finite m1 e1 m2 e2 :
  bounded Float64.prec Float64.emax m1 e1 = true ->
  bounded Float64.prec Float64.emax m2 e2 = true ->
  match e1 ?= e2 with
  | Lt => Lt
  | Gt => Gt
  | Eq => Pos.compare_cont Eq m1 m2
  end = (Zpos m1 * 2 ^ (e1 + 1074) ?= Zpos m2 * 2 ^ (e2 + 1074)).
Proof.
  intros H1 H2. destruct (Z.compare_spec e1 e2) as [->|Hlt|Hgt].
  - destruct (bounded_facts m2 e2 H2) as [Hc2 _].
    assert (-1074 <= e2) by (revert Hc2; fexp_lia).
    assert (Ha : 0 < 2 ^ (e2 + 1074)) by (apply Z.pow_pos_nonneg; lia).
    change (Pos.compare_cont Eq m1 m2) with (Zpos m1 ?= Zpos m2).
    destruct (Z.compare_spec (Zpos m1) (Zpos m2)),
             (Z.compare_spec (Zpos m1 * 2 ^ (e2 + 1074)) (Zpos m2 * 2 ^ (e2 + 1074)));
      try reflexivity; nia.
  - symmetry. apply Z.compare_lt_iff, canonical_lt; assumption.
  - symmetry. apply Z.compare_gt_iff, canonical_lt; assumption.
Qed.

Lemma compare_finite_neg m1 e1 m2 e2 :
  bounded Float64.prec Float64.emax m1 e1 = true ->
  bounded Float64.prec Float64.emax m2 e2 = true ->
  match e1 ?= e2 with
  | Lt => Gt
  | Gt => Lt
  | Eq => CompOpp (Pos.compare_cont Eq m1 m2)
  end = (- (Zpos m1 * 2 ^ (e1 + 1074)) ?= - (Zpos m2 * 2 ^ (e2 + 1074))).
Proof.
  intros H1 H2.
  transitivity (CompOpp (Zpos m1 * 2 ^ (e1 + 1074) ?= Zpos m2 * 2 ^ (e2 + 1074))).
  - rewrite <- (compare_finite m1 e1 m2 e2 H1 H2). destruct (e1 ?= e2); reflexivity.
  - rewrite Z.compare_opp. symmetry. apply Z.compare_antisym.
Qed.

(** Comparing numbers is comparing their values. *)
Lemma compare_units x y :
  is_number x = true -> is_number y = true -> SFcompare x y = Some (units x ?= units y).
Proof.
  intros Hx Hy. pose proof huge_pos as HH.
  destruct x as [sx|sx| |sx mx ex], y as [sy|sy| |sy my ey]; try discriminate;
    cbn [SFcompare units];
    try (pose proof (finite_units mx ex Hx) as [_ Ux]);
    try (pose proof (finite_units my ey Hy) as [_ Uy]).
  9:{ destruct sx, sy; cbn [cond_Zopp]; f_equal.
      - apply compare_finite_neg; assumption.
      - symmetry. apply Z.compare_lt_iff. lia.
      - symmetry. apply Z.compare_gt_iff. lia.
      - apply compare_finite; assumption. }
  all: try destruct sx; try destruct sy; cbn [cond_Zopp]; f_equal; symmetry;
    first [apply Z.compare_eq_iff; lia|apply Z.compare_lt_iff; lia|apply Z.compare_gt_iff; lia].
Qed.

Lemma number_real_or_inf x :
  is_number x = true -> is_real x = true \/ exists s, x = S754_infinity s.
Proof. destruct x as [s|s| |s m e]; try discriminate; eauto. Qed.

Lemma le_units x y : is_number x = true -> is_number y = true -> units x <= units y -> Float64.le x y = true.
Proof.
  intros Hx Hy Hle. unfold Float64.le, SFleb. rewrite (compare_units x y Hx Hy).
  destruct (Z.compare_spec (units x) (units y)); try reflexivity; lia.
Qed.

Lemma lt_units x y :
  is_number x = true -> is_number y = true -> Float64.lt x y = true -> units x < units y.
Proof.
  intros Hx Hy. unfold Float64.lt, SFltb. rewrite (compare_units x y Hx Hy).
  destruct (Z.compare_spec (units x) (units y)); try discriminate. intros _. assumption.
Qed.

(** Adding a negative number never raises a finite one. *)
Lemma add_negative_le (y h : float) :
  is_real y = true -> is_number h = true -> Float64.lt h Float64.zero = true ->
  Float64.le (Float64.add y h) y = true.
Proof.
  intros Hy Hh Hneg.
  destruct (number_real_or_inf h Hh) as [Hr|[s ->]].
  - pose proof (lt_units h Float64.zero Hh eq_refl Hneg) as Hlt. change (units Float64.zero) with 0 in Hlt.
    destruct (add_units y h Hy Hr) as [Hp He].
    apply le_units; [exact Hp|apply is_real_number, Hy|].
    rewrite He, <- (rounded_units y Hy) at 1. rewrite (rounded_units y Hy) at 1.
    rewrite <- (rounded_units y Hy) at 2. apply rounded_mono. lia.
  - destruct s; [|discriminate].
    destruct y as [sy| | |sy my ey]; try discriminate; destruct sy; reflexivity.
Qed.

(** A footer height above the page height puts the raised lower edge at
    or above the upper edge. *)
Lemma add_above_height (l u h : float) :
  is_real l = true -> is_real u = true -> is_number h = true ->
  Float64.gt h (Float64.sub u l) = true ->
  Float64.le u (Float64.add l h) = true.
Proof.
  intros Hl Hu Hh Hgt. destruct (sub_units u l Hu Hl) as [Hps Hes].
  pose proof (lt_units _ _ Hps Hh Hgt) as Hlt. rewrite Hes in Hlt.
  destruct (number_real_or_inf h Hh) as [Hr|[s ->]].
  - destruct (add_units l h Hl Hr) as [Hp He].
    apply le_units; [apply is_real_number, Hu|exact Hp|].
    rewrite He, <- (rounded_units u Hu). apply rounded_mono.
    destruct (Z.le_gt_cases (units u - units l) (units h)) as [Hle|Hcontra]; [lia|].
    pose proof (rounded_mono (units h) (units u - units l) ltac:(lia)) as Hm.
    rewrite (rounded_units h Hr) in Hm. lia.
  - destruct s.
    + exfalso. cbn [units cond_Zopp] in Hlt. pose proof huge_pos.
      assert (- huge <= rounded (units u - units l)); [|lia].
      destruct (units u - units l) as [|p|p]; cbn [rounded]; try lia.
      pose proof (round53_nonneg (Zpos p) ltac:(lia)). lia.
    + destruct l as [sl| | |sl ml el]; try discriminate;
        destruct u as [su| | |su mu eu]; try discriminate; try destruct su; reflexivity.
Qed.

End Rounding.

(** ** Footer heights nobody checks *)

(** C4, as stated, fails: on a page from 3 to 10000000000000004 the footer
    height 10000000000000002 exceeds the page height (10000000000000000
    after rounding), and the raised lower edge 3 + 10000000000000002 rounds
    to 10000000000000004, the upper edge: the rectangle is empty, not
    inverted. *)
Lemma footer_above_height_not_inverted :
  let run := remove_footer "input.pdf" "output.pdf" above_tall
               (world_of [page_of tall "page 1"]) in
  float_of_str "10000000000000002" = Some above_tall /\
  is_real (bottom tall) = true /\ is_real (top tall) = true /\
  Float64.gt above_tall (height tall) = true /\
  snd run = Return true /\
  map mediabox (pages_at "output.pdf" (fst run))
    = [Box (rect 0 10000000000000004 612 10000000000000004)] /\
  inverted (rect 0 10000000000000004 612 10000000000000004) = false.
Proof.
  vm_compute. repeat split.
Qed.

(** C4, amended. The footer height is never validated: with any footer
    height a run on a readable document succeeds and stores lower-left y
    [y + h] (rounded) under the unchanged upper edge. When the footer
    height exceeds the page's height the output rectangle is inverted or,
    where the sum rounds onto the upper edge, empty: its lower-left y is
    at or above its upper-right y. It is inverted exactly when [y + h] is
    greater than the upper-right y, which is so whenever the footer height
    exceeds the height of a page whose lower-left y is 0. *)
Theorem oversized_footer_not_rejected (w : World) (input output : string) (h : float)
    (doc : list PageObject) :
  files w !! input = Some (PdfFile doc) ->
  forallb has_box doc = true ->
  unwritable w !! output = None ->
  write_error w = None ->
  exists w' out,
    python (remove_footer input output h) w = (w', Exited 0) /\
    files w' !! output = Some (PdfFile out) /\
    forall i page r,
      doc !! i = Some page -> mediabox page = Box r ->
      exists page' r',
        out !! i = Some page' /\ mediabox page' = Box r' /\
        bottom r' = Float64.add (bottom r) h /\ top r' = top r /\
        inverted r' = Float64.gt (Float64.add (bottom r) h) (top r) /\
        (is_real (bottom r) = true -> is_real (top r) = true -> is_number h = true ->
         Float64.gt h (height r) = true ->
         Float64.le (top r') (bottom r') = true) /\
        (Float64.is_zero (bottom r) = true -> Float64.gt h (height r) = true ->
         inverted r' = true).
Proof.
  intros Hf Hall Hout Hwrite.
  eexists _, _.
  split; [eapply python_returned, (remove_footer_ok _ _ _ _ doc); assumption|].
  split; [simpl; apply lookup_insert_eq|].
  intros i page r Hi Hbox. exists (set_mediabox page (cropped h r)), (cropped h r).
  split; [apply cropped_page_lookup; assumption|].
  do 4 (split; [reflexivity|]). split.
  - intros Hbottom Htop Hh Hgt. apply add_above_height; assumption.
  - intros Hzero Hgt. apply origin_inverted; assumption.
Qed.

Lemma oversized_footer_not_rejected_witness :
  exists w' out,
    python (remove_footer "input.pdf" "output.pdf" (Float64.of_Z 800)) (world_of [letter])
    = (w', Exited 0) /\
    files w' !! "output.pdf" = Some (PdfFile out) /\
    forall i page r,
      [letter] !! i = Some page -> mediabox page = Box r ->
      exists page' r',
        out !! i = Some page' /\ mediabox page' = Box r' /\
        bottom r' = Float64.add (bottom r) (Float64.of_Z 800) /\ top r' = top r /\
        inverted r' = Float64.gt (Float64.add (bottom r) (Float64.of_Z 800)) (top r) /\
        (is_real (bottom r) = true -> is_real (top r) = true ->
         is_number (Float64.of_Z 800) = true ->
         Float64.gt (Float64.of_Z 800) (height r) = true ->
         Float64.le (top r') (bottom r') = true) /\
        (Float64.is_zero (bottom r) = true ->
         Float64.gt (Float64.of_Z 800) (height r) = true ->
         inverted r' = true).
Proof.
  apply (oversized_footer_not_rejected (world_of [letter]) "input.pdf" "output.pdf"
           (Float64.of_Z 800) [letter]); reflexivity.
Defined.

(** C10, as stated, fails: the negative footer height -1e-15 is accepted,
    but added to a lower edge at 72 it is rounded away and the edge stays
    at 72: nothing is lowered. *)
Lemma tiny_negative_height_lowers_nothing :
  let run := remove_footer "input.pdf" "output.pdf" minus_tiny (world_of [raised_letter]) in
  float_of_str "-1e-15" = Some minus_tiny /\
  is_number minus_tiny = true /\
  Float64.lt minus_tiny Float64.zero = true /\
  snd run = Return true /\
  map lower_left_y (pages_at "output.pdf" (fst run)) = [Some (Float64.of_Z 72)] /\
  Float64.lt (Float64.of_Z 72) (Float64.of_Z 72) = false.
Proof.
  vm_compute. repeat split.
Qed.

(** C10, amended. The sign of the footer height is never checked: a
    negative height goes through the same addition as any other, the run
    succeeds and prints only the progress and success lines, and every
    page gets lower-left y [y + h] (rounded). That is never above the old
    edge, and equal to it only where rounding absorbs the height; on a
    page whose lower-left y is 0 it is below the old edge, so the
    rectangle grows downward. *)
Theorem negative_footer_accepted (w : World) (input output : string) (h : float)
    (doc : list PageObject) :
  Float64.lt h Float64.zero = true ->
  files w !! input = Some (PdfFile doc) ->
  forallb has_box doc = true ->
  unwritable w !! output = None ->
  write_error w = None ->
  exists w' out,
    python (remove_footer input output h) w = (w', Exited 0) /\
    stdout w' = stdout w ++ progress (length doc) 0 (length doc)
                         ++ success_lines (length doc) output /\
    files w' !! output = Some (PdfFile out) /\
    forall i page r,
      doc !! i = Some page -> mediabox page = Box r ->
      exists page' r',
        out !! i = Some page' /\ mediabox page' = Box r' /\
        bottom r' = Float64.add (bottom r) h /\
        left r' = left r /\ right r' = right r /\ top r' = top r /\
        (is_real (bottom r) = true -> is_number h = true ->
         Float64.le (bottom r') (bottom r) = true) /\
        (Float64.is_zero (bottom r) = true -> Float64.lt (bottom r') (bottom r) = true).
Proof.
  intros Hneg Hf Hall Hout Hwrite.
  eexists _, _.
  split; [eapply python_returned, (remove_footer_ok _ _ _ _ doc); assumption|].
  split; [reflexivity|].
  split; [simpl; apply lookup_insert_eq|].
  intros i page r Hi Hbox. exists (set_mediabox page (cropped h r)), (cropped h r).
  split; [apply cropped_page_lookup; assumption|].
  do 5 (split; [reflexivity|]). split.
  - intros Hbottom Hh. apply add_negative_le; assumption.
  - intros Hzero. apply origin_lowered; assumption.
Qed.

Lemma negative_footer_accepted_witness :
  exists w' out,
    python (remove_footer "input.pdf" "output.pdf" (Float64.of_Z (-50))) (world_of [letter])
    = (w', Exited 0) /\
    stdout w' = stdout (world_of [letter]) ++ progress 1 0 1 ++ success_lines 1 "output.pdf" /\
    files w' !! "output.pdf" = Some (PdfFile out) /\
    forall i page r,
      [letter] !! i = Some page -> mediabox page = Box r ->
      exists page' r',
        out !! i = Some page' /\ mediabox page' = Box r' /\
        bottom r' = Float64.add (bottom r) (Float64.of_Z (-50)) /\
        left r' = left r /\ right r' = right r /\ top r' = top r /\
        (is_real (bottom r) = true -> is_number (Float64.of_Z (-50)) = true ->
         Float64.le (bottom r') (bottom r) = true) /\
        (Float64.is_zero (bottom r) = true -> Float64.lt (bottom r') (bottom r) = true).
Proof.
  apply (negative_footer_accepted (world_of [letter]) "input.pdf" "output.pdf"
           (Float64.of_Z (-50)) [letter]); reflexivity.
Defined.

(** * Further properties *)

(** ** Every way a run can end *)

(** The three shapes of an outcome: a failure that wrote nothing, a failed
    write that left an incomplete output file, a success. *)
Lemma remove_footer_outcomes input output h w :
  (snd (remove_footer input output h w) = Raise (SystemExit 1) /\
   files (fst (remove_footer input output h w)) = files w /\
   ~ (exists doc, files w !! input = Some (PdfFile doc) /\ forallb has_box doc = true /\
                  unwritable w !! output = None)) \/
  (snd (remove_footer input output h w) = Raise (SystemExit 1) /\
   files (fst (remove_footer input output h w)) = <[output := interrupted w]> (files w) /\
   exists doc e, files w !! input = Some (PdfFile doc) /\ forallb has_box doc = true /\
                 unwritable w !! output = None /\ write_error w = Some e) \/
  (snd (remove_footer input output h w) = Return true /\
   exists doc, files w !! input = Some (PdfFile doc) /\ forallb has_box doc = true /\
               unwritable w !! output = None /\ write_error w = None /\
               files (fst (remove_footer input output h w)) =
                 <[output := PdfFile (map (cropped_page h) doc)]> (files w)).
Proof.
  destruct (files w !! input) as [[doc|e]|] eqn:Hf.
  - destruct (first_malformed doc) as [[k e]|] eqn:Hbad.
    + left. rewrite (remove_footer_bad_page _ _ _ _ doc k e Hf Hbad).
      repeat split. intros (doc' & [= <-] & Hall & _).
      apply first_malformed_none in Hall. congruence.
    + apply first_malformed_none in Hbad.
      destruct (unwritable w !! output) as [e|] eqn:Hout.
      { left. rewrite (remove_footer_unwritable _ _ _ _ doc e Hf Hbad Hout).
        repeat split. intros (doc' & _ & _ & [=]). }
      destruct (write_error w) as [e|] eqn:Hwrite.
      { right; left. rewrite (remove_footer_write_error _ _ _ _ doc e Hf Hbad Hout Hwrite).
        repeat split. exists doc, e. auto. }
      right; right. rewrite (remove_footer_ok _ _ _ _ doc Hf Hbad Hout Hwrite).
      split; [reflexivity|]. exists doc. auto.
  - left. rewrite (remove_footer_unreadable _ _ _ _ e Hf).
    repeat split. intros (doc' & [=] & _).
  - left. destruct (stat w !! input) as [r|] eqn:Hs.
    + rewrite (remove_footer_no_file _ _ _ _ r Hf Hs).
      repeat split. intros (doc' & [=] & _).
    + rewrite (remove_footer_missing _ _ _ _ Hf Hs).
      repeat split. intros (doc' & [=] & _).
Qed.

(** X1. Whatever happens, a run changes no file but the one at the output
    path. *)
Theorem other_files_untouched (w : World) (input output p : string) (h : float) :
  p <> output ->
  files (fst (remove_footer input output h w)) !! p = files w !! p.
Proof.
  intros Hp.
  destruct (remove_footer_outcomes input output h w)
    as [(_ & -> & _)|[(_ & -> & _)|(_ & doc & _ & _ & _ & _ & ->)]];
    [reflexivity|apply lookup_insert_ne; congruence..].
Qed.

Lemma other_files_untouched_witness :
  files (fst (remove_footer "input.pdf" "output.pdf" (Float64.of_Z 50) (world_of [letter])))
    !! "input.pdf" = files (world_of [letter]) !! "input.pdf".
Proof.
  apply (other_files_untouched (world_of [letter]) "input.pdf" "output.pdf" "input.pdf").
  discriminate.
Defined.

(** X2. The process ends with exit status 0 exactly when the input is a
    PDF whose pages all have a media box, the output path can be opened and
    the write does not fail; in every other case the status is 1. *)
Theorem exit_status_0_iff (w : World) (input output : string) (h : float) :
  (exit_status (snd (python (remove_footer input output h) w)) = 0%Z <->
   exists doc, files w !! input = Some (PdfFile doc) /\ forallb has_box doc = true /\
               unwritable w !! output = None /\ write_error w = None) /\
  (exit_status (snd (python (remove_footer input output h) w)) = 0%Z \/
   exit_status (snd (python (remove_footer input output h) w)) = 1%Z).
Proof.
  unfold python.
  destruct (remove_footer_outcomes input output h w)
    as [(Hr & _ & Hno)|[(Hr & _ & doc & e & Hf & Hall & Hout & Hwrite)|(Hr & doc & Hf & Hall & Hout & Hwrite & _)]];
    destruct (remove_footer input output h w) as [w' r]; simpl in Hr; subst r; simpl.
  - split; [|right; reflexivity]. split; [discriminate|].
    intros (doc & Hf & Hall & Hout & _). exfalso. apply Hno. eauto.
  - split; [|right; reflexivity]. split; [discriminate|].
    intros (doc' & _ & _ & _ & Hnone). congruence.
  - split; [|left; reflexivity]. split; [|reflexivity]. intros _. eauto 10.
Qed.

(** X3. When [writer.write] raises, nothing brings back what the output
    path held: the file that [open(output_pdf, 'wb')] truncated holds what
    the interrupted write left and nothing else, whatever was there before.
    An earlier output is gone, and so is the input document itself when
    both paths are the same. *)
Theorem failed_write_loses_old_output (w : World) (input output : string) (h : float)
    (doc : list PageObject) (e : error) :
  files w !! input = Some (PdfFile doc) ->
  forallb has_box doc = true ->
  unwritable w !! output = None ->
  write_error w = Some e ->
  exists w',
    python (remove_footer input output h) w = (w', Exited 1) /\
    files w' !! output = Some (interrupted w) /\
    (output = input -> files w' !! input = Some (interrupted w)) /\
    (output <> input -> forall f,
       files (fst (remove_footer input output h
                     (set_files (fun fs => <[output := f]> fs) w))) !! output
       = Some (interrupted w)).
Proof.
  intros Hf Hall Hout Hwrite. eexists.
  split; [apply python_exited, (remove_footer_write_error _ _ _ _ doc e); assumption|].
  assert (Hnew : files (printed (progress (length doc) 0 (length doc) ++ [failure_line e])
                    (set_files (fun fs => <[output := interrupted w]> fs) w)) !! output
                 = Some (interrupted w)) by (simpl; apply lookup_insert_eq).
  split; [exact Hnew|]. split; [intros <-; exact Hnew|].
  intros Hne f.
  rewrite (remove_footer_write_error _ _ _ (set_files (fun fs => <[output := f]> fs) w) doc e);
    try assumption.
  - simpl. apply lookup_insert_eq.
  - simpl. rewrite lookup_insert_ne by congruence. exact Hf.
Qed.

Lemma failed_write_loses_old_output_witness :
  let w := world_with (PdfFile [letter]) ∅ (Some disk_full) in
  exists w',
    python (remove_footer "input.pdf" "input.pdf" (Float64.of_Z 50)) w = (w', Exited 1) /\
    files w' !! "input.pdf" = Some cut_short /\
    ("input.pdf" = "input.pdf" -> files w' !! "input.pdf" = Some cut_short) /\
    ("input.pdf" <> "input.pdf" -> forall f,
       files (fst (remove_footer "input.pdf" "input.pdf" (Float64.of_Z 50)
                     (set_files (fun fs => <["input.pdf" := f]> fs) w))) !! "input.pdf"
       = Some cut_short).
Proof.
  apply (failed_write_loses_old_output (world_with (PdfFile [letter]) ∅ (Some disk_full))
           "input.pdf" "input.pdf" (Float64.of_Z 50) [letter] disk_full); reflexivity.
Defined.

(** ** A footer height of zero *)

Lemma add_zero_keeps (y h : float) :
  Float64.is_zero h = true ->
  if Float64.is_zero y then Float64.is_zero (Float64.add y h) = true
  else Float64.add y h = y.
Proof.
  destruct h as [sh| | |]; try discriminate; intros _.
  destruct y as [sy|sy| |sy my ey]; try destruct sy; try destruct sh; reflexivity.
Qed.

(** X4. With a footer height of 0 (or -0.0) a run copies the document:
    every page keeps its rectangle, except that a lower-left y that is a
    zero stays a zero, possibly of the other sign. *)
Theorem zero_height_copies (w : World) (input output : string) (h : float)
    (doc : list PageObject) :
  Float64.is_zero h = true ->
  files w !! input = Some (PdfFile doc) ->
  forallb has_box doc = true ->
  unwritable w !! output = None ->
  write_error w = None ->
  exists w' out,
    remove_footer input output h w = (w', Return true) /\
    files w' !! output = Some (PdfFile out) /\
    forall i page r,
      doc !! i = Some page -> mediabox page = Box r ->
      exists page' r',
        out !! i = Some page' /\ mediabox page' = Box r' /\
        contents page' = contents page /\
        left r' = left r /\ right r' = right r /\ top r' = top r /\
        (Float64.is_zero (bottom r) = false -> page' = page) /\
        (Float64.is_zero (bottom r) = true -> Float64.is_zero (bottom r') = true).
Proof.
  intros Hzero Hf Hall Hout Hwrite.
  eexists _, _. split; [apply (remove_footer_ok _ _ _ _ doc); assumption|].
  split; [simpl; apply lookup_insert_eq|].
  intros i page r Hi Hbox. exists (set_mediabox page (cropped h r)), (cropped h r).
  split; [apply cropped_page_lookup; assumption|].
  do 5 (split; [reflexivity|]).
  pose proof (add_zero_keeps (bottom r) h Hzero) as Hkeep.
  split; intros Hb; rewrite Hb in Hkeep.
  - destruct page as [box c], r as [l b rr t]. simpl in *. subst box.
    unfold set_mediabox, cropped. simpl. rewrite Hkeep. reflexivity.
  - exact Hkeep.
Qed.

Lemma zero_height_copies_witness :
  exists w' out,
    remove_footer "input.pdf" "output.pdf" Float64.zero (world_of [raised_letter])
    = (w', Return true) /\
    files w' !! "output.pdf" = Some (PdfFile out) /\
    forall i page r,
      [raised_letter] !! i = Some page -> mediabox page = Box r ->
      exists page' r',
        out !! i = Some page' /\ mediabox page' = Box r' /\
        contents page' = contents page /\
        left r' = left r /\ right r' = right r /\ top r' = top r /\
        (Float64.is_zero (bottom r) = false -> page' = page) /\
        (Float64.is_zero (bottom r) = true -> Float64.is_zero (bottom r') = true).
Proof.
  apply (zero_height_copies (world_of [raised_letter]) "input.pdf" "output.pdf"
           Float64.zero [raised_letter]); reflexivity.
Defined.

(** ** The order of floats under cropping *)

Section Order.
Local Open Scope Z_scope.

Lemma units_bounds x : is_number x = true -> - huge <= units x <= huge.
Proof.
  intros Hx. pose proof huge_pos.
  destruct x as [s|s| |s m e]; try discriminate; cbn [units].
  - lia.
  - destruct s; cbn [cond_Zopp]; lia.
  - pose proof (finite_units m e Hx) as [_ Hu]. destruct s; cbn [cond_Zopp]; lia.
Qed.

Lemma real_units_bounds x : is_real x = true -> - huge < units x < huge.
Proof.
  intros Hx. pose proof huge_pos.
  destruct x as [s|s| |s m e]; try discriminate; cbn [units]; [lia|].
  pose proof (finite_units m e Hx) as [_ Hu]. destruct s; cbn [cond_Zopp]; lia.
Qed.

Lemma le_units_inv x y :
  is_number x = true -> is_number y = true -> Float64.le x y = true -> units x <= units y.
Proof.
  intros Hx Hy. unfold Float64.le, SFleb. rewrite (compare_units x y Hx Hy).
  destruct (Z.compare_spec (units x) (units y)); try discriminate; lia.
Qed.

Lemma add_number y h :
  is_real y = true -> is_number h = true -> is_number (Float64.add y h) = true.
Proof.
  intros Hy Hh. destruct (number_real_or_inf h Hh) as [Hr|[s ->]].
  - apply (add_units y h Hy Hr).
  - destruct y as [sy| | |sy my ey]; try discriminate; reflexivity.
Qed.

(** A larger number added gives a result at least as large. *)
Lemma add_mono_r (y h1 h2 : float) :
  is_real y = true -> is_number h1 = true -> is_number h2 = true ->
  Float64.le h1 h2 = true ->
  Float64.le (Float64.add y h1) (Float64.add y h2) = true.
Proof.
  intros Hy H1 H2 Hle.
  pose proof (le_units_inv h1 h2 H1 H2 Hle) as Hu.
  pose proof (add_number y h1 Hy H1) as N1. pose proof (add_number y h2 Hy H2) as N2.
  pose proof huge_pos.
  destruct (number_real_or_inf h1 H1) as [R1|[s1 ->]],
           (number_real_or_inf h2 H2) as [R2|[s2 ->]].
  - apply le_units; [assumption..|].
    rewrite (proj2 (add_units y h1 Hy R1)), (proj2 (add_units y h2 Hy R2)).
    apply rounded_mono. lia.
  - pose proof (real_units_bounds h1 R1). destruct s2; cbn [units cond_Zopp] in Hu; [lia|].
    apply le_units; [assumption..|].
    replace (Float64.add y (S754_infinity false)) with (S754_infinity false)
      by (destruct y; try discriminate; reflexivity).
    apply (units_bounds _ N1).
  - pose proof (real_units_bounds h2 R2). destruct s1; cbn [units cond_Zopp] in Hu; [|lia].
    apply le_units; [assumption..|].
    replace (Float64.add y (S754_infinity true)) with (S754_infinity true)
      by (destruct y; try discriminate; reflexivity).
    apply (units_bounds _ N2).
  - destruct s1, s2; cbn [units cond_Zopp] in Hu; try lia;
      destruct y as [sy| | |sy my ey]; try discriminate; reflexivity.
Qed.

(** Adding a non-negative number never lowers a finite one. *)
Lemma add_nonneg_ge (y h : float) :
  is_real y = true -> is_number h = true -> Float64.le Float64.zero h = true ->
  Float64.le y (Float64.add y h) = true.
Proof.
  intros Hy Hh Hpos.
  pose proof (add_mono_r y Float64.zero h Hy eq_refl Hh Hpos) as Hle.
  pose proof (le_units_inv _ _ (add_number y Float64.zero Hy eq_refl)
                (add_number y h Hy Hh) Hle) as Hu.
  rewrite (proj2 (add_units y Float64.zero Hy eq_refl)) in Hu.
  change (units Float64.zero) with 0 in Hu. rewrite Z.add_0_r, (rounded_units y Hy) in Hu.
  apply le_units; [apply is_real_number, Hy|apply add_number; assumption|exact Hu].
Qed.

(** Subtracting a larger number gives a result at most as large. *)
Lemma sub_anti_r (t y y' : float) :
  is_real t = true -> is_real y = true -> is_number y' = true ->
  Float64.le y y' = true ->
  Float64.le (Float64.sub t y') (Float64.sub t y) = true.
Proof.
  intros Ht Hy Hy' Hle.
  pose proof (le_units_inv y y' (is_real_number y Hy) Hy' Hle) as Hu.
  destruct (sub_units t y Ht Hy) as [Ns Us]. pose proof huge_pos.
  destruct (number_real_or_inf y' Hy') as [Hr|[s ->]].
  - destruct (sub_units t y' Ht Hr) as [Ns' Us'].
    apply le_units; [assumption..|]. rewrite Us, Us'. apply rounded_mono. lia.
  - pose proof (real_units_bounds y Hy). destruct s; cbn [units cond_Zopp] in Hu; [lia|].
    replace (Float64.sub t (S754_infinity false)) with (S754_infinity true)
      by (destruct t; try discriminate; reflexivity).
    apply le_units; [reflexivity|assumption|]. apply (units_bounds _ Ns).
Qed.

End Order.

(** X5. With a footer height that is not negative a run only crops: no
    page's lower edge moves down and no page's height grows (finite
    coordinates; both hold with [<=] because a small height can be rounded
    away). *)
Theorem nonnegative_footer_only_crops (w : World) (input output : string) (h : float)
    (doc : list PageObject) :
  is_number h = true ->
  Float64.le Float64.zero h = true ->
  files w !! input = Some (PdfFile doc) ->
  forallb has_box doc = true ->
  unwritable w !! output = None ->
  write_error w = None ->
  exists w' out,
    remove_footer input output h w = (w', Return true) /\
    files w' !! output = Some (PdfFile out) /\
    forall i page r,
      doc !! i = Some page -> mediabox page = Box r ->
      is_real (bottom r) = true -> is_real (top r) = true ->
      exists page' r',
        out !! i = Some page' /\ mediabox page' = Box r' /\
        Float64.le (bottom r) (bottom r') = true /\
        Float64.le (height r') (height r) = true.
Proof.
  intros Hh Hpos Hf Hall Hout Hwrite.
  eexists _, _. split; [apply (remove_footer_ok _ _ _ _ doc); assumption|].
  split; [simpl; apply lookup_insert_eq|].
  intros i page r Hi Hbox Hb Ht. exists (set_mediabox page (cropped h r)), (cropped h r).
  split; [apply cropped_page_lookup; assumption|]. split; [reflexivity|].
  pose proof (add_nonneg_ge (bottom r) h Hb Hh Hpos) as Hup.
  split; [exact Hup|].
  apply sub_anti_r; [assumption..|apply add_number; assumption|exact Hup].
Qed.

Lemma nonnegative_footer_only_crops_witness :
  exists w' out,
    remove_footer "input.pdf" "output.pdf" tenth (world_of [raised_letter])
    = (w', Return true) /\
    files w' !! "output.pdf" = Some (PdfFile out) /\
    forall i page r,
      [raised_letter] !! i = Some page -> mediabox page = Box r ->
      is_real (bottom r) = true -> is_real (top r) = true ->
      exists page' r',
        out !! i = Some page' /\ mediabox page' = Box r' /\
        Float64.le (bottom r) (bottom r') = true /\
        Float64.le (height r') (height r) = true.
Proof.
  apply (nonnegative_footer_only_crops (world_of [raised_letter]) "input.pdf" "output.pdf"
           tenth [raised_letter]); reflexivity.
Defined.

(** X6. A larger footer height never crops less: of two runs on the same
    document, the one with the larger height leaves every page's lower
    edge at or above where the other leaves it. *)
Theorem larger_footer_crops_more (w : World) (input output : string) (h1 h2 : float)
    (doc : list PageObject) :
  is_number h1 = true -> is_number h2 = true ->
  Float64.le h1 h2 = true ->
  files w !! input = Some (PdfFile doc) ->
  forallb has_box doc = true ->
  unwritable w !! output = None ->
  write_error w = None ->
  exists w1 w2 out1 out2,
    remove_footer input output h1 w = (w1, Return true) /\
    remove_footer input output h2 w = (w2, Return true) /\
    files w1 !! output = Some (PdfFile out1) /\
    files w2 !! output = Some (PdfFile out2) /\
    forall i page r,
      doc !! i = Some page -> mediabox page = Box r -> is_real (bottom r) = true ->
      exists page1 r1 page2 r2,
        out1 !! i = Some page1 /\ mediabox page1 = Box r1 /\
        out2 !! i = Some page2 /\ mediabox page2 = Box r2 /\
        Float64.le (bottom r1) (bottom r2) = true.
Proof.
  intros H1 H2 Hle Hf Hall Hout Hwrite.
  eexists _, _, _, _.
  split; [apply (remove_footer_ok _ _ _ _ doc); assumption|].
  split; [apply (remove_footer_ok _ _ _ _ doc); assumption|].
  split; [simpl; apply lookup_insert_eq|]. split; [simpl; apply lookup_insert_eq|].
  intros i page r Hi Hbox Hb.
  exists (set_mediabox page (cropped h1 r)), (cropped h1 r),
         (set_mediabox page (cropped h2 r)), (cropped h2 r).
  split; [apply cropped_page_lookup; assumption|]. split; [reflexivity|].
  split; [apply cropped_page_lookup; assumption|]. split; [reflexivity|].
  apply add_mono_r; assumption.
Qed.

Lemma larger_footer_crops_more_witness :
  exists w1 w2 out1 out2,
    remove_footer "input.pdf" "output.pdf" tenth (world_of [raised_letter])
    = (w1, Return true) /\
    remove_footer "input.pdf" "output.pdf" (Float64.of_Z 50) (world_of [raised_letter])
    = (w2, Return true) /\
    files w1 !! "output.pdf" = Some (PdfFile out1) /\
    files w2 !! "output.pdf" = Some (PdfFile out2) /\
    forall i page r,
      [raised_letter] !! i = Some page -> mediabox page = Box r ->
      is_real (bottom r) = true ->
      exists page1 r1 page2 r2,
        out1 !! i = Some page1 /\ mediabox page1 = Box r1 /\
        out2 !! i = Some page2 /\ mediabox page2 = Box r2 /\
        Float64.le (bottom r1) (bottom r2) = true.
Proof.
  apply (larger_footer_crops_more (world_of [raised_letter]) "input.pdf" "output.pdf"
           tenth (Float64.of_Z 50) [raised_letter]); reflexivity.
Defined.

(** ** The command line *)

Lemma remove_footer_exits input output h w :
  exists code, snd (python (remove_footer input output h) w) = Exited code.
Proof.
  unfold python.
  destruct (remove_footer_outcomes input output h w) as [(Hr & _)|[(Hr & _)|(Hr & _)]];
    destruct (remove_footer input output h w) as [w' r]; simpl in Hr; subst r; simpl; eauto.
Qed.

Lemma main_exits w : exists code, snd (python main w) = Exited code.
Proof.
  unfold python at 1. rewrite main_banner.
  match goal with
  | |- context [(?m ;; ret tt) ?w'] => fold (python (m ;; ret tt) w')
  end.
  rewrite python_then_ret. apply remove_footer_exits.
Qed.

(** X7. A run of the script ends in a traceback in one case only: there
    is a third argument and it is no number. Every other run ends with an
    exit status. *)
Theorem traceback_only_from_footer_height (argv : list string) (w : World) (e : error) :
  snd (python (script argv) w) = Traceback e <->
  (3 < length argv)%nat /\
  float_of_str (nth 3 argv "") = None /\
  e = {| cls := "ValueError";
         msg := "could not convert string to float: " +:+ repr (nth 3 argv "") |}.
Proof.
  destruct argv as [|prog [|input [|output [|a3 rest]]]].
  - change (script []) with main. destruct (main_exits w) as [code ->].
    split; [discriminate|]. simpl. intros [Hlen _]. lia.
  - change (script [prog]) with main. destruct (main_exits w) as [code ->].
    split; [discriminate|]. simpl. intros [Hlen _]. lia.
  - change (script [prog; input])
      with (remove_footer input "output.pdf" (Float64.of_Z 50) ;; ret tt).
    rewrite python_then_ret.
    destruct (remove_footer_exits input "output.pdf" (Float64.of_Z 50) w) as [code ->].
    split; [discriminate|]. simpl. intros [Hlen _]. lia.
  - change (script [prog; input; output])
      with (remove_footer input output (Float64.of_Z 50) ;; ret tt).
    rewrite python_then_ret.
    destruct (remove_footer_exits input output (Float64.of_Z 50) w) as [code ->].
    split; [discriminate|]. simpl. intros [Hlen _]. lia.
  - change (nth 3 (prog :: input :: output :: a3 :: rest) "") with a3.
    destruct (float_of_str a3) as [x|] eqn:Hx.
    + rewrite (script_with_height _ _ _ _ _ x) by exact Hx.
      destruct (remove_footer_exits input output x w) as [code ->].
      split; [discriminate|]. intros (_ & [=] & _).
    + rewrite (script_malformed_height _ _ _ _ _ _ Hx). simpl. split.
      * intros [= <-]. split; [lia|]. split; reflexivity.
      * intros (_ & _ & ->). reflexivity.
Qed.

(** X8. A successful run reports every page once and in order: line [i]
    of its output is "Processed page i/n" for [i] from 1 to the page count
    [n], and the two success lines follow, the first with [n]. *)
Theorem pages_reported_in_order (w : World) (input output : string) (h : float)
    (doc : list PageObject) :
  files w !! input = Some (PdfFile doc) ->
  forallb has_box doc = true ->
  unwritable w !! output = None ->
  write_error w = None ->
  exists lines,
    stdout (fst (remove_footer input output h w)) =
      stdout w ++ lines ++
      [newline +:+ "Success! Footer removed from " +:+ pretty (length doc) +:+ " pages.";
       "Output saved to: " +:+ output] /\
    length lines = length doc /\
    forall i, (i < length doc)%nat ->
      lines !! i =
        Some ("Processed page " +:+ pretty (i + 1)%nat +:+ "/" +:+ pretty (length doc)).
Proof.
  intros Hf Hall Hout Hwrite. exists (progress (length doc) 0 (length doc)).
  rewrite (remove_footer_ok _ _ _ _ doc Hf Hall Hout Hwrite).
  split; [reflexivity|]. unfold progress. split.
  - rewrite length_map. apply length_seq.
  - intros i Hi.
    change (map ?f ?l) with (f <$> l).
    rewrite list_lookup_fmap, lookup_seq_lt by exact Hi. reflexivity.
Qed.

Lemma pages_reported_in_order_witness :
  exists lines,
    stdout (fst (remove_footer "input.pdf" "output.pdf" (Float64.of_Z 50)
                   (world_of [letter; raised_letter]))) =
      stdout (world_of [letter; raised_letter]) ++ lines ++
      [newline +:+ "Success! Footer removed from " +:+ pretty 2%nat +:+ " pages.";
       "Output saved to: " +:+ "output.pdf"] /\
    length lines = 2%nat /\
    forall i, (i < 2)%nat ->
      lines !! i = Some ("Processed page " +:+ pretty (i + 1)%nat +:+ "/" +:+ pretty 2%nat).
Proof.
  apply (pages_reported_in_order (world_of [letter; raised_letter]) "input.pdf" "output.pdf"
           (Float64.of_Z 50) [letter; raised_letter]); reflexivity.
Defined.

(** ** Two croppings in a row *)

Lemma add_comm (x y : float) : Float64.add x y = Float64.add y x.
Proof.
  destruct x as [sx|sx| |sx mx ex], y as [sy|sy| |sy my ey];
    try destruct sx; try destruct sy; try reflexivity;
    unfold Float64.add, SFadd; rewrite (Z.min_comm ey ex); f_equal; apply Z.add_comm.
Qed.

Lemma origin_commutes (b h1 h2 : float) :
  Float64.is_zero b = true ->
  Float64.add (Float64.add b h1) h2 = Float64.add (Float64.add b h2) h1.
Proof.
  destruct b as [sb| | |]; try discriminate; intros _.
  destruct h1 as [s1|s1| |s1 m1 e1], h2 as [s2|s2| |s2 m2 e2];
    try (destruct sb; try destruct s1; try destruct s2; reflexivity).
  change (Float64.add (S754_zero sb) (S754_finite s1 m1 e1)) with (S754_finite s1 m1 e1).
  change (Float64.add (S754_zero sb) (S754_finite s2 m2 e2)) with (S754_finite s2 m2 e2).
  apply add_comm.
Qed.

Lemma remove_footer_pair_ok input middle output h1 h2 w doc :
  files w !! input = Some (PdfFile doc) ->
  forallb has_box doc = true ->
  unwritable w !! middle = None ->
  unwritable w !! output = None ->
  write_error w = None ->
  exists w',
    (remove_footer input middle h1 ;; remove_footer middle output h2) w = (w', Return true) /\
    files w' !! output = Some (PdfFile (map (cropped_page h2) (map (cropped_page h1) doc))).
Proof.
  intros Hf Hall Hmid Hout Hwrite. unfold bind.
  rewrite (remove_footer_ok _ _ _ _ doc Hf Hall Hmid Hwrite).
  erewrite (remove_footer_ok middle output h2 _ (map (cropped_page h1) doc)).
  - eexists. split; [reflexivity|]. simpl. apply lookup_insert_eq.
  - simpl. apply lookup_insert_eq.
  - apply cropped_page_has_box, Hall.
  - exact Hout.
  - exact Hwrite.
Qed.

(** X9. Two runs in a row, by [h1] and then by [h2] on the output of the
    first, leave every page with lower-left y [(y + h1) + h2] and its other
    coordinates and its content unchanged. On a page whose lower-left y is
    0 the order of the two heights does not matter. *)
Theorem two_croppings (w : World) (input middle output : string) (h1 h2 : float)
    (doc : list PageObject) :
  files w !! input = Some (PdfFile doc) ->
  forallb has_box doc = true ->
  unwritable w !! middle = None ->
  unwritable w !! output = None ->
  write_error w = None ->
  exists w' out,
    (remove_footer input middle h1 ;; remove_footer middle output h2) w = (w', Return true) /\
    files w' !! output = Some (PdfFile out) /\
    length out = length doc /\
    forall i page r,
      doc !! i = Some page -> mediabox page = Box r ->
      exists page' r',
        out !! i = Some page' /\ mediabox page' = Box r' /\
        contents page' = contents page /\
        bottom r' = Float64.add (Float64.add (bottom r) h1) h2 /\
        left r' = left r /\ right r' = right r /\ top r' = top r /\
        (Float64.is_zero (bottom r) = true ->
         bottom r' = Float64.add (Float64.add (bottom r) h2) h1).
Proof.
  intros Hf Hall Hmid Hout Hwrite.
  destruct (remove_footer_pair_ok input middle output h1 h2 w doc Hf Hall Hmid Hout Hwrite)
    as (w' & Hrun & Hfile).
  exists w', (map (cropped_page h2) (map (cropped_page h1) doc)).
  split; [exact Hrun|]. split; [exact Hfile|]. split; [rewrite !length_map; reflexivity|].
  intros i page r Hi Hbox.
  exists (set_mediabox (set_mediabox page (cropped h1 r)) (cropped h2 (cropped h1 r))),
         (cropped h2 (cropped h1 r)).
  split.
  { apply (cropped_page_lookup h2 _ i (set_mediabox page (cropped h1 r)) (cropped h1 r));
      [apply cropped_page_lookup; assumption|reflexivity]. }
  do 6 (split; [reflexivity|]).
  intros Hzero. apply origin_commutes, Hzero.
Qed.

Lemma two_croppings_witness :
  exists w' out,
    (remove_footer "input.pdf" "middle.pdf" tenth ;;
     remove_footer "middle.pdf" "output.pdf" (Float64.of_Z 50)) (world_of [letter])
    = (w', Return true) /\
    files w' !! "output.pdf" = Some (PdfFile out) /\
    length out = 1%nat /\
    forall i page r,
      [letter] !! i = Some page -> mediabox page = Box r ->
      exists page' r',
        out !! i = Some page' /\ mediabox page' = Box r' /\
        contents page' = contents page /\
        bottom r' = Float64.add (Float64.add (bottom r) tenth) (Float64.of_Z 50) /\
        left r' = left r /\ right r' = right r /\ top r' = top r /\
        (Float64.is_zero (bottom r) = true ->
         bottom r' = Float64.add (Float64.add (bottom r) (Float64.of_Z 50)) tenth).
Proof.
  apply (two_croppings (world_of [letter]) "input.pdf" "middle.pdf" "output.pdf"
           tenth (Float64.of_Z 50) [letter]); reflexivity.
Defined.

(** ** Which error is reported *)

Lemma failure_line_not_not_found e input : failure_line e <> not_found_line input.
Proof. unfold failure_line, not_found_line. simpl. discriminate. Qed.

(** X10. The "not found" message is printed exactly when
    [Path(input_pdf).exists()] answers [False]: there is no file at the
    input path and [os.stat] finds nothing there. An [os.stat] that raises,
    a path that is found but cannot be opened or read, a page without a box
    and a failing output are reported by the other message, and a success
    by neither. *)
Theorem not_found_iff_missing (w : World) (input output : string) (h : float) :
  stdout (fst (remove_footer input output h w)) =
    stdout w ++ ["Error: Input file '" +:+ input +:+ "' not found."]
  <-> files w !! input = None /\ stat w !! input = None.
Proof.
  split.
  - destruct (files w !! input) as [[doc|e]|] eqn:Hf;
      [| |destruct (stat w !! input) as [r|] eqn:Hs; [|split; reflexivity]];
      intros Hout; exfalso.
    + assert (Hlast : forall lines l0, stdout w ++ lines ++ [l0] =
                stdout w ++ [not_found_line input] -> l0 = not_found_line input).
      { intros lines l0 H. apply app_inv_head in H.
        destruct lines as [|a [|b lines]]; simpl in H; [congruence|discriminate|discriminate]. }
      destruct (first_malformed doc) as [[k e]|] eqn:Hbad.
      { rewrite (remove_footer_bad_page _ _ _ _ doc k e Hf Hbad) in Hout. simpl in Hout.
        apply Hlast in Hout.
        exact (failure_line_not_not_found _ _ Hout). }
      apply first_malformed_none in Hbad.
      destruct (unwritable w !! output) as [e|] eqn:Ho.
      { rewrite (remove_footer_unwritable _ _ _ _ doc e Hf Hbad Ho) in Hout. simpl in Hout.
        apply Hlast in Hout.
        exact (failure_line_not_not_found _ _ Hout). }
      destruct (write_error w) as [e|] eqn:Hw.
      { rewrite (remove_footer_write_error _ _ _ _ doc e Hf Hbad Ho Hw) in Hout.
        simpl in Hout. apply Hlast in Hout.
        exact (failure_line_not_not_found _ _ Hout). }
      rewrite (remove_footer_ok _ _ _ _ doc Hf Hbad Ho Hw) in Hout. simpl in Hout.
      apply app_inv_head in Hout. apply (f_equal length) in Hout.
      rewrite length_app in Hout. simpl in Hout. lia.
    + rewrite (remove_footer_unreadable _ _ _ _ e Hf) in Hout.
      unfold printed, set_stdout in Hout. cbn [fst stdout] in Hout.
      apply app_inv_head in Hout.
      assert (Hline : failure_line e = not_found_line input)
        by (unfold not_found_line; congruence).
      exact (failure_line_not_not_found _ _ Hline).
    + rewrite (remove_footer_no_file _ _ _ _ r Hf Hs) in Hout.
      unfold printed, set_stdout in Hout. cbn [fst stdout] in Hout.
      apply app_inv_head in Hout.
      assert (Hline : failure_line (raised_at r) = not_found_line input)
        by (unfold not_found_line; congruence).
      exact (failure_line_not_not_found _ _ Hline).
  - intros [Hf Hs]. rewrite (remove_footer_missing _ _ _ _ Hf Hs). reflexivity.
Qed.

(** ** An output file that is already there *)

(** X11. What the output path holds before a run makes no difference: the
    run neither reads nor checks it. With any file put at an output path
    other than the input, the run returns the same and prints the same, and
    when it succeeds it leaves the same file at the output path: an
    existing output is overwritten unasked. *)
Theorem existing_output_ignored (w : World) (input output : string) (h : float) (f : file) :
  output <> input ->
  let w0 := set_files (fun fs => <[output := f]> fs) w in
  snd (remove_footer input output h w0) = snd (remove_footer input output h w) /\
  stdout (fst (remove_footer input output h w0)) =
    stdout (fst (remove_footer input output h w)) /\
  (snd (remove_footer input output h w) = Return true ->
   files (fst (remove_footer input output h w0)) !! output =
     files (fst (remove_footer input output h w)) !! output).
Proof.
  intros Hne w0.
  assert (Hin : files w0 !! input = files w !! input)
    by (simpl; apply lookup_insert_ne; exact Hne).
  destruct (files w !! input) as [[doc|e]|] eqn:Hf.
  - destruct (first_malformed doc) as [[k e]|] eqn:Hbad.
    { rewrite (remove_footer_bad_page _ _ _ w0 doc k e Hin Hbad),
              (remove_footer_bad_page _ _ _ w doc k e Hf Hbad).
      repeat split. discriminate. }
    apply first_malformed_none in Hbad.
    destruct (unwritable w !! output) as [e|] eqn:Ho.
    { rewrite (remove_footer_unwritable _ _ _ w0 doc e Hin Hbad Ho),
              (remove_footer_unwritable _ _ _ w doc e Hf Hbad Ho).
      repeat split. discriminate. }
    destruct (write_error w) as [e|] eqn:Hw.
    { rewrite (remove_footer_write_error _ _ _ w0 doc e Hin Hbad Ho Hw),
              (remove_footer_write_error _ _ _ w doc e Hf Hbad Ho Hw).
      repeat split. discriminate. }
    rewrite (remove_footer_ok _ _ _ w0 doc Hin Hbad Ho Hw),
            (remove_footer_ok _ _ _ w doc Hf Hbad Ho Hw).
    repeat split. intros _. simpl. rewrite !lookup_insert_eq. reflexivity.
  - rewrite (remove_footer_unreadable _ _ _ w0 e Hin), (remove_footer_unreadable _ _ _ w e Hf).
    repeat split. discriminate.
  - destruct (stat w !! input) as [r|] eqn:Hs.
    + rewrite (remove_footer_no_file _ _ _ w0 r Hin Hs),
              (remove_footer_no_file _ _ _ w r Hf Hs).
      repeat split. discriminate.
    + rewrite (remove_footer_missing _ _ _ w0 Hin Hs), (remove_footer_missing _ _ _ w Hf Hs).
      repeat split. discriminate.
Qed.

Lemma existing_output_ignored_witness :
  let w := world_of [letter] in
  let w0 := set_files (fun fs => <["output.pdf" := NotPdf corrupt]> fs) w in
  snd (remove_footer "input.pdf" "output.pdf" (Float64.of_Z 50) w0) =
    snd (remove_footer "input.pdf" "output.pdf" (Float64.of_Z 50) w) /\
  stdout (fst (remove_footer "input.pdf" "output.pdf" (Float64.of_Z 50) w0)) =
    stdout (fst (remove_footer "input.pdf" "output.pdf" (Float64.of_Z 50) w)) /\
  (snd (remove_footer "input.pdf" "output.pdf" (Float64.of_Z 50) w) = Return true ->
   files (fst (remove_footer "input.pdf" "output.pdf" (Float64.of_Z 50) w0)) !! "output.pdf" =
     files (fst (remove_footer "input.pdf" "output.pdf" (Float64.of_Z 50) w)) !! "output.pdf").
Proof.
  apply (existing_output_ignored (world_of [letter]) "input.pdf" "output.pdf"
           (Float64.of_Z 50) (NotPdf corrupt)).
  discriminate.
Defined.
